(** * setup_pipeline.py: provisioning script for the PyTorch -> ONNX -> C pipeline

    A shallow embedding of [src/setup_pipeline.py].  The script is a linear
    sequence of calls into the Azure ML SDK; the embedding keeps that shape:

    - the local machine (parsed command line, [os.environ] after
      [load_dotenv()], the file system, the [uuid4] draw) is a record [Host];
    - the SDK and the remote platform behind it are an arbitrary state
      machine [SDK S]: every call may return a value or raise, and may change
      the platform state;
    - [main] runs in a monad that threads the platform state, stops at the
      first uncaught exception, and logs every [print] and every SDK call
      with its outcome in a transcript.

    The file assumes a Python that accepts the nested double quotes of the
    f-strings on lines 83-84 (3.12 or later). *)

From stdpp Require Import base strings gmap list pretty.
From Stdlib Require Import ZArith Ascii.

Open Scope string_scope.
Open Scope list_scope.

(** ** Python values the script touches *)

(** Exceptions.  [SdkError cls msg] stands for an exception of any class that
    is not one of the others and not a subclass of [ResourceExistsError]
    (ClientAuthenticationError, HttpResponseError, ValidationException, ...). *)
Inductive exn : Type :=
| KeyError (key : string)
| FileNotFoundError (msg : string)
| AttributeError (msg : string)
| SystemExit (code : Z)
| ResourceExistsError (msg : string)
| SdkError (cls msg : string).

Inductive outcome (A : Type) : Type :=
| Returned (a : A)
| Raised (e : exn).
Arguments Returned {A} a.
Arguments Raised {A} e.

Definition outcome_map {A B} (f : A → B) (o : outcome A) : outcome B :=
  match o with
  | Returned a => Returned (f a)
  | Raised e => Raised e
  end.

(** [str(x)] for an attribute typed [Optional[str]], as an f-string formats it. *)
Definition py_str (o : option string) : string :=
  match o with
  | Some s => s
  | None => "None"
  end.

(** [argparse.Namespace] of the parser of lines 22-23: one [store_true] flag. *)
Record Namespace : Type := { run : bool }.

Record IdentityConfiguration : Type := {
  identity_type : string;
  principal_id : option string }.

(** A compute target, as sent ([AmlCompute(...)], lines 58-66) and as the
    workspace returns it ([compute.list()], [compute.get()]). *)
Record AmlCompute : Type := {
  compute_name : string;
  compute_type : string;
  vm_size : string;
  min_instances : Z;
  max_instances : Z;
  idle_time_before_scale_down : Z;
  identity : option IdentityConfiguration }.

Record Datastore : Type := { account_name : string }.

Record RoleAssignmentCreateParameters : Type := {
  role_definition_id : string;
  role_principal_id : option string;
  principal_type : string }.

Record RoleAssignment : Type := { assignment_id : option string }.

Record BuildContext : Type := { path : string }.

Record Environment : Type := {
  env_name : string;
  env_description : string;
  build : BuildContext;
  version : option string }.

(** [Input(type=..., description=...)] and [Output(...)]. *)
Record Port : Type := { port_type : string; port_description : string }.

(** The object [command(...)] returns: a component that can be called inside
    a [dsl.pipeline] function. *)
Record Command : Type := {
  name : string;
  display_name : string;
  description : string;
  environment : string;
  compute : string;
  code : string;
  inputs : list (string * Port);
  outputs : list (string * Port);
  command : string }.

(** [step.outputs.<port>]: a reference to an output of a node of the graph. *)
Record NodeOutput : Type := { owner : string; output_name : string }.

(** A node of the pipeline graph: a component called with keyword arguments.
    [node] is the variable the call is assigned to in [nn_pipeline]. *)
Record Step : Type := {
  node : string;
  component : Command;
  bindings : list (string * NodeOutput) }.

(** What [nn_pipeline()] builds under the [dsl.pipeline] decorator. *)
Record PipelineJob : Type := {
  pipeline_name : string;
  pipeline_description : string;
  pipeline_compute : string;
  jobs : list Step;
  pipeline_outputs : list (string * NodeOutput) }.

(** The job [jobs.create_or_update] returns; the script reads its [name]. *)
Record Job : Type := { job_name : option string }.

Global Instance exn_eq_dec : EqDecision exn.
Proof. solve_decision. Defined.
Global Instance Namespace_eq_dec : EqDecision Namespace.
Proof. solve_decision. Defined.
Global Instance IdentityConfiguration_eq_dec : EqDecision IdentityConfiguration.
Proof. solve_decision. Defined.
Global Instance AmlCompute_eq_dec : EqDecision AmlCompute.
Proof. solve_decision. Defined.
Global Instance Datastore_eq_dec : EqDecision Datastore.
Proof. solve_decision. Defined.
Global Instance RoleAssignmentCreateParameters_eq_dec :
  EqDecision RoleAssignmentCreateParameters.
Proof. solve_decision. Defined.
Global Instance RoleAssignment_eq_dec : EqDecision RoleAssignment.
Proof. solve_decision. Defined.
Global Instance Job_eq_dec : EqDecision Job.
Proof. solve_decision. Defined.
Global Instance BuildContext_eq_dec : EqDecision BuildContext.
Proof. solve_decision. Defined.
Global Instance Environment_eq_dec : EqDecision Environment.
Proof. solve_decision. Defined.
Global Instance Port_eq_dec : EqDecision Port.
Proof. solve_decision. Defined.
Global Instance Command_eq_dec : EqDecision Command.
Proof. solve_decision. Defined.
Global Instance NodeOutput_eq_dec : EqDecision NodeOutput.
Proof. solve_decision. Defined.
Global Instance Step_eq_dec : EqDecision Step.
Proof. solve_decision. Defined.
Global Instance PipelineJob_eq_dec : EqDecision PipelineJob.
Proof. solve_decision. Defined.

(** ** The SDK surface the script uses *)

(** One constructor per SDK entry point the script calls, with the arguments
    it passes.  The [new_] ones build local client objects; the others are
    requests to the platform. *)
Inductive call : Type :=
| new_DefaultAzureCredential
| new_MLClient (subscription_id resource_group_name workspace_name : string)
| new_AuthorizationManagementClient (subscription_id : string)
| compute_list
| compute_begin_create_or_update (c : AmlCompute)
| compute_get (compute : string)
| datastores_get (datastore : string)
| role_assignments_create (scope role_assignment_name : string)
    (parameters : RoleAssignmentCreateParameters)
| environments_create_or_update (env : Environment)
| jobs_create_or_update (pipeline : PipelineJob).

(** The type of what each call returns when it does not raise. *)
Definition response (c : call) : Type :=
  match c with
  | new_DefaultAzureCredential => unit
  | new_MLClient _ _ _ => unit
  | new_AuthorizationManagementClient _ => unit
  | compute_list => list AmlCompute
  | compute_begin_create_or_update _ => AmlCompute
  | compute_get _ => AmlCompute
  | datastores_get _ => Datastore
  | role_assignments_create _ _ _ => RoleAssignment
  | environments_create_or_update _ => Environment
  | jobs_create_or_update _ => Job
  end.

(** Returned values as the transcript records them. *)
Inductive value : Type :=
| VNone
| VComputes (l : list AmlCompute)
| VCompute (c : AmlCompute)
| VDatastore (d : Datastore)
| VRoleAssignment (r : RoleAssignment)
| VEnvironment (e : Environment)
| VJob (j : Job).

Definition to_value (c : call) : response c → value :=
  match c with
  | new_DefaultAzureCredential => λ _, VNone
  | new_MLClient _ _ _ => λ _, VNone
  | new_AuthorizationManagementClient _ => λ _, VNone
  | compute_list => VComputes
  | compute_begin_create_or_update _ => VCompute
  | compute_get _ => VCompute
  | datastores_get _ => VDatastore
  | role_assignments_create _ _ _ => VRoleAssignment
  | environments_create_or_update _ => VEnvironment
  | jobs_create_or_update _ => VJob
  end.

(** The calls that reach the platform (everything but object construction). *)
Definition is_remote (c : call) : bool :=
  match c with
  | new_DefaultAzureCredential
  | new_MLClient _ _ _
  | new_AuthorizationManagementClient _ => false
  | _ => true
  end.

(** What a run shows: lines printed and SDK calls with their outcome. *)
Inductive event : Type :=
| Print (line : string)
| Invoke (c : call) (r : outcome value).

Definition is_remote_event (ev : event) : bool :=
  match ev with
  | Print _ => false
  | Invoke c _ => is_remote c
  end.

(** The SDK with the platform behind it: a state machine over [S]. *)
Record SDK (S : Type) : Type := {
  handle : ∀ c : call, S → outcome (response c) * S }.
Arguments handle {S} _ c _.

Inductive file_type : Type := regular_file | directory.

(** The machine the script runs on. *)
Record Host : Type := {
  (** [parser.parse_args()]: the namespace, or argparse's [SystemExit]. *)
  parse_args : outcome Namespace;
  (** [os.environ], after [load_dotenv()] ran at import. *)
  environ : gmap string string;
  (** What each path resolves to, if it resolves. *)
  file_system : gmap string file_type;
  (** [str(uuid.uuid4())]. *)
  uuid4 : string }.

(** ** The monad [main] runs in *)

Record result (S A : Type) : Type := Run {
  returned : outcome A;
  final : S;
  transcript : list event }.
Arguments Run {S A} _ _ _.
Arguments returned {S A} _.
Arguments final {S A} _.
Arguments transcript {S A} _.

Definition M (S A : Type) : Type := S → result S A.

Definition ret {S A} (a : A) : M S A := λ s, Run (Returned a) s [].

Definition raise {S A} (e : exn) : M S A := λ s, Run (Raised e) s [].

Definition bind {S A B} (m : M S A) (k : A → M S B) : M S B := λ s,
  let r := m s in
  match returned r with
  | Returned a =>
      let r' := k a (final r) in
      Run (returned r') (final r') (transcript r ++ transcript r')
  | Raised e => Run (Raised e) (final r) (transcript r)
  end.

Global Instance M_ret {S} : MRet (M S) := λ A a, ret a.
Global Instance M_bind {S} : MBind (M S) := λ A B k m, bind m k.

Definition lift {S A} (o : outcome A) : M S A := λ s, Run o s [].

Definition print {S} (line : string) : M S unit := λ s,
  Run (Returned tt) s [Print line].

Definition invoke {S} (sdk : SDK S) (c : call) : M S (response c) := λ s,
  let '(r, s') := handle sdk c s in
  Run r s' [Invoke c (outcome_map (to_value c) r)].

(** [try: body except ResourceExistsError: handler].  Any other exception
    leaves the statement; the handler starts from the state and after the
    output the body had reached. *)
Definition try_except_ResourceExistsError {S A}
    (body : M S A) (handler : string → M S A) : M S A := λ s,
  let r := body s in
  match returned r with
  | Raised (ResourceExistsError msg) =>
      let r' := handler msg (final r) in
      Run (returned r') (final r') (transcript r ++ transcript r')
  | _ => r
  end.

(** [for x in l: body x]. *)
Fixpoint for_each {S A} (l : list A) (body : A → M S unit) : M S unit :=
  match l with
  | [] => ret tt
  | x :: l' => (body x ;; for_each l' body) : M S unit
  end.

(** [for x in l: acc = body acc x], for a loop that updates one variable. *)
Fixpoint for_fold {S A B} (body : B → A → M S B) (acc : B) (l : list A) : M S B :=
  match l with
  | [] => ret acc
  | x :: l' => (acc' ← body acc x; for_fold body acc' l') : M S B
  end.

(** [d[k]] on a dict with string keys: the value, or [KeyError]. *)
Definition subscript {S} (d : gmap string string) (k : string) : M S string :=
  match d !! k with
  | Some v => ret v
  | None => raise (KeyError k)
  end.

(** ** The script's constants *)

(** Lines 35-43. *)
Definition directories : list string :=
  [ "environments/pytorch";
    "environments/onnx2c";
    "environments/gcc";
    "src/pytorch_train";
    "src/onnx2c";
    "src/compile_test";
    "src/minimal_binary" ].

(** Lines 58-66: the cluster the script asks for. *)
Definition compute_cluster : AmlCompute :=
  {| compute_name := "cpu-cluster";
     compute_type := "amlcompute";
     vm_size := "Standard_DS3_v2";
     min_instances := 0;
     max_instances := 4;
     idle_time_before_scale_down := 120;
     identity := Some {| identity_type := "SystemAssigned"; principal_id := None |} |}.

(** Lines 119-123: name, build-context directory, description. *)
Definition env_configs : list (string * string * string) :=
  [ ("pytorch-onnx-env", "environments/pytorch",
     "Environment for PyTorch training and ONNX export");
    ("onnx2c-env", "environments/onnx2c",
     "Environment for ONNX to C conversion");
    ("gcc-env", "environments/gcc",
     "Environment for C compilation and testing") ].

Definition uri_folder (description : string) : Port :=
  {| port_type := "uri_folder"; port_description := description |}.

(** Lines 145-156; [environment] is [latest_envs["pytorch-onnx-env"]]. *)
Definition train_pytorch_model (environment : string) : Command :=
  {| name := "pytorch_train";
     display_name := "Train PyTorch Model and Export to ONNX";
     description := "Trains a PyTorch model and exports it to ONNX format";
     environment := environment;
     compute := "cpu-cluster";
     code := "./src/pytorch_train";
     inputs := [];
     outputs := [("output_dir", uri_folder "Output directory for model and test data")];
     command := "python run.py --output_dir ${{outputs.output_dir}}" |}.

(** Lines 159-173; [environment] is [latest_envs["onnx2c-env"]]. *)
Definition convert_onnx_to_c (environment : string) : Command :=
  {| name := "onnx2c";
     display_name := "Convert ONNX to C";
     description := "Converts ONNX model to C code using onnx2c";
     environment := environment;
     compute := "cpu-cluster";
     code := "./src/onnx2c";
     inputs := [("model_dir", uri_folder "Directory containing ONNX model and test data")];
     outputs := [("output_dir", uri_folder "Output directory for core C model code")];
     command := "python run.py --model_dir ${{inputs.model_dir}} --output_dir ${{outputs.output_dir}}" |}.

(** Lines 176-191; [environment] is [latest_envs["gcc-env"]]. *)
Definition compile_and_test (environment : string) : Command :=
  {| name := "compile_and_test";
     display_name := "Compile C Code and Run Tests";
     description := "Compiles C code and runs tests";
     environment := environment;
     compute := "cpu-cluster";
     code := "./src/compile_test";
     inputs := [("c_code_dir", uri_folder "Directory containing core C model code");
                ("model_dir", uri_folder "Directory containing test data from model training")];
     outputs := [("output_dir", uri_folder "Output directory for test results")];
     command := "python run.py --c_code_dir ${{inputs.c_code_dir}} --model_dir ${{inputs.model_dir}} --output_dir ${{outputs.output_dir}}" |}.

(** Lines 194-208; [environment] is [latest_envs["gcc-env"]]. *)
Definition build_minimal_binary (environment : string) : Command :=
  {| name := "build_minimal";
     display_name := "Build Minimal Binary";
     description := "Creates minimal binary for deployment";
     environment := environment;
     compute := "cpu-cluster";
     code := "./src/minimal_binary";
     inputs := [("c_code_dir", uri_folder "Directory containing core C model code")];
     outputs := [("output_dir", uri_folder "Output directory for minimal binary")];
     command := "python run.py --c_code_dir ${{inputs.c_code_dir}} --output_dir ${{outputs.output_dir}}" |}.

(** ** The pipeline DSL *)

(** Calling a component inside a pipeline function adds a node whose inputs
    are bound to the keyword arguments. *)
Definition call_component (node : string) (c : Command)
    (kwargs : list (string * NodeOutput)) : Step :=
  {| node := node; component := c; bindings := kwargs |}.

(** [step.outputs.<port>]. *)
Definition step_output (s : Step) (port : string) : NodeOutput :=
  {| owner := node s; output_name := port |}.

(** Lines 211-238.  The four components are the variables the function
    closes over. *)
Definition nn_pipeline
    (train_pytorch_model convert_onnx_to_c compile_and_test build_minimal_binary : Command)
    : PipelineJob :=
  let train_step := call_component "train_step" train_pytorch_model [] in
  let onnx2c_step :=
    call_component "onnx2c_step" convert_onnx_to_c
      [("model_dir", step_output train_step "output_dir")] in
  let compile_step :=
    call_component "compile_step" compile_and_test
      [("c_code_dir", step_output onnx2c_step "output_dir");
       ("model_dir", step_output train_step "output_dir")] in
  let binary_step :=
    call_component "binary_step" build_minimal_binary
      [("c_code_dir", step_output onnx2c_step "output_dir")] in
  {| pipeline_name := "pytorch-onnx-c-pipeline";
     pipeline_description :=
       "Pipeline for training PyTorch model, converting to ONNX, C, and building minimal binary";
     pipeline_compute := "cpu-cluster";
     jobs := [train_step; onnx2c_step; compile_step; binary_step];
     pipeline_outputs :=
       [("training_output", step_output train_step "output_dir");
        ("c_code_output", step_output onnx2c_step "output_dir");
        ("test_results", step_output compile_step "output_dir");
        ("minimal_binary", step_output binary_step "output_dir")] |}.

(** A connection of the graph: an output port of one node bound to an input
    port of another. *)
Record edge : Type := {
  source : string;
  source_output : string;
  target : string;
  target_input : string }.

Global Instance edge_eq_dec : EqDecision edge.
Proof. solve_decision. Defined.

Definition step_edges (s : Step) : list edge :=
  map (λ b : string * NodeOutput,
         {| source := owner b.2; source_output := output_name b.2;
            target := node s; target_input := b.1 |})
      (bindings s).

Definition edges (p : PipelineJob) : list edge := flat_map step_edges (jobs p).

(** The component behind a node name, if the pipeline has such a node. *)
Definition component_of (p : PipelineJob) (n : string) : option Command :=
  component <$> List.find (λ s, bool_decide (node s = n)) (jobs p).

(** The position of a node in declaration order. *)
Fixpoint position (n : string) (l : list Step) : option nat :=
  match l with
  | [] => None
  | s :: l' => if bool_decide (node s = n) then Some 0 else S <$> position n l'
  end.

(** Lines 29-31: the variables [main] reads from the environment, in the
    order it reads them. *)
Definition required_variables : list string :=
  ["subscription_id"; "resource_group_name"; "workspace_name"].

(** The first of them that the environment of a host does not define. *)
Definition first_unset (environ : gmap string string) : option string :=
  List.find (λ key, bool_decide (environ !! key = None)) required_variables.

(** ** The script *)

Section Script.
Context {S : Type} (sdk : SDK S) (host : Host).

(** [os.environ[key]]: the value, or [KeyError]; there is no default. *)
Definition os_environ (key : string) : M S string := subscript (environ host) key.

(** [os.path.exists(p)]: true for anything the path resolves to. *)
Definition os_path_exists (p : string) : bool :=
  bool_decide (is_Some (file_system host !! p)).

(** Line 44. *)
Definition missing_directories : list string :=
  List.filter (λ directory, negb (os_path_exists directory)) directories.

(** Lines 22-32.  Python evaluates the positional argument
    [DefaultAzureCredential()] before the keyword arguments, and those left
    to right, before it calls [MLClient]. *)
Definition connect : M S Namespace :=
  args ← lift (parse_args host);
  invoke sdk new_DefaultAzureCredential ;;
  subscription_id ← os_environ "subscription_id";
  resource_group_name ← os_environ "resource_group_name";
  workspace_name ← os_environ "workspace_name";
  invoke sdk (new_MLClient subscription_id resource_group_name workspace_name) ;;
  mret args.

(** Lines 44-52. *)
Definition check_directories : M S unit :=
  match missing_directories with
  | _ :: _ =>
      print "The following required directories are missing:" ;;
      for_each missing_directories (λ directory, print (" - " +:+ directory)) ;;
      raise (FileNotFoundError
        "One or more required directories are missing. Please create them and try again.")
  | [] => print "All required directories are present."
  end.

(** Lines 56-73; returns [principal_id]. *)
Definition create_compute : M S (option string) :=
  print "Creating compute cluster..." ;;
  computes ← invoke sdk compute_list;
  (if bool_decide ("cpu-cluster" ∉ compute_name <$> computes)
   then invoke sdk (compute_begin_create_or_update compute_cluster) ;;
        print "Compute cluster created."
   else print "Compute cluster already exists.") ;;
  cluster ← invoke sdk (compute_get "cpu-cluster");
  principal_id ←
    match identity cluster with
    | Some i => mret (principal_id i)
    | None => raise (AttributeError "'NoneType' object has no attribute 'principal_id'")
    end;
  print ("Compute cluster identity principal ID: " +:+ py_str principal_id) ;;
  mret principal_id.

(** Lines 74-104. *)
Definition assign_role (principal_id : option string) : M S unit :=
  datastore ← invoke sdk (datastores_get "workspaceblobstore");
  let storage_account_name := account_name datastore in
  invoke sdk new_DefaultAzureCredential ;;
  subscription_id ← os_environ "subscription_id";
  invoke sdk (new_AuthorizationManagementClient subscription_id) ;;
  subscription_id ← os_environ "subscription_id";
  resource_group_name ← os_environ "resource_group_name";
  let scope :=
    "/subscriptions/" +:+ subscription_id +:+ "/resourceGroups/" +:+ resource_group_name
    +:+ "/providers/Microsoft.Storage/storageAccounts/" +:+ storage_account_name in
  subscription_id ← os_environ "subscription_id";
  let role_definition_id :=
    "/subscriptions/" +:+ subscription_id
    +:+ "/providers/Microsoft.Authorization/roleDefinitions/ba92f5b4-2d11-453d-a403-e96b0029c9fe" in
  let role_assignment_id := uuid4 host in
  let role_assignment_params :=
    {| role_definition_id := role_definition_id;
       role_principal_id := principal_id;
       principal_type := "ServicePrincipal" |} in
  try_except_ResourceExistsError
    (role_assignment ←
       invoke sdk (role_assignments_create scope role_assignment_id role_assignment_params);
     print ("Role assignment created: " +:+ py_str (assignment_id role_assignment)))
    (λ _, print "Role assignment already exists. Skipping creation.").

(** Lines 128-139: one turn of the loop over [env_configs]. *)
Definition register_environment (latest_envs : gmap string string)
    (config : string * string * string) : M S (gmap string string) :=
  let '(env_name, env_dir, env_description) := config in
  let env :=
    {| env_name := env_name;
       env_description := env_description;
       build := {| path := env_dir |};
       version := None |} in
  registered_env ← invoke sdk (environments_create_or_update env);
  print ("Environment " +:+ env_name +:+ " created/updated with version "
         +:+ py_str (version registered_env)) ;;
  mret (<[env_name := env_name +:+ ":" +:+ py_str (version registered_env)]> latest_envs).

(** Lines 118-139; returns [latest_envs]. *)
Definition create_environments : M S (gmap string string) :=
  print "Creating environments..." ;;
  for_fold register_environment ∅ env_configs.

(** Lines 142-241; returns [pipeline]. *)
Definition create_pipeline (latest_envs : gmap string string) : M S PipelineJob :=
  print "Creating pipeline components..." ;;
  environment ← subscript latest_envs "pytorch-onnx-env";
  let train_pytorch_model := train_pytorch_model environment in
  environment ← subscript latest_envs "onnx2c-env";
  let convert_onnx_to_c := convert_onnx_to_c environment in
  environment ← subscript latest_envs "gcc-env";
  let compile_and_test := compile_and_test environment in
  environment ← subscript latest_envs "gcc-env";
  let build_minimal_binary := build_minimal_binary environment in
  mret (nn_pipeline train_pytorch_model convert_onnx_to_c compile_and_test
          build_minimal_binary).

(** Lines 22-241: everything [main] does before it looks at [args.run]. *)
Definition setup : M S (Namespace * PipelineJob) :=
  args ← connect;
  check_directories ;;
  principal_id ← create_compute;
  assign_role principal_id ;;
  latest_envs ← create_environments;
  pipeline ← create_pipeline latest_envs;
  mret (args, pipeline).

(** Lines 244-249. *)
Definition submit (args : Namespace) (pipeline : PipelineJob) : M S unit :=
  if run args
  then pipeline_job ← invoke sdk (jobs_create_or_update pipeline);
       print ("Pipeline job submitted with ID: " +:+ py_str (job_name pipeline_job))
  else print (String "010"%char "Setup complete! Pipeline is ready to be submitted.") ;;
       print "Run the pipeline with the --run flag to execute it.".

(** Lines 20-249. *)
Definition main : M S unit :=
  '(args, pipeline) ← setup;
  submit args pipeline.

End Script.

(** ** A reference workspace

    A small platform to run the script against: it stores computes by name,
    gives a system-assigned identity to a compute created with one, refuses a
    second role assignment of the same role to the same principal on the
    same scope, and numbers the versions of an environment 1, 2, ... *)

Record Workspace : Type := {
  ws_computes : list AmlCompute;
  ws_datastore : option Datastore;
  ws_role_assignments : list (string * RoleAssignmentCreateParameters);
  ws_environments : list string;
  ws_jobs : list PipelineJob }.

Definition provision (c : AmlCompute) : AmlCompute :=
  {| compute_name := compute_name c;
     compute_type := compute_type c;
     vm_size := vm_size c;
     min_instances := min_instances c;
     max_instances := max_instances c;
     idle_time_before_scale_down := idle_time_before_scale_down c;
     identity :=
       (λ i, {| identity_type := identity_type i;
                principal_id := Some ("principal-of-" +:+ compute_name c) |})
       <$> identity c |}.

Definition upsert (c : AmlCompute) (l : list AmlCompute) : list AmlCompute :=
  if bool_decide (compute_name c ∈ compute_name <$> l)
  then map (λ c', if bool_decide (compute_name c' = compute_name c) then c else c') l
  else l ++ [c].

Definition registrations (env_name : string) (l : list string) : nat :=
  length (List.filter (λ n, bool_decide (n = env_name)) l).

Definition workspace_handle (c : call) (w : Workspace)
    : outcome (response c) * Workspace :=
  match c as c' return outcome (response c') * Workspace with
  | new_DefaultAzureCredential => (Returned tt, w)
  | new_MLClient _ _ _ => (Returned tt, w)
  | new_AuthorizationManagementClient _ => (Returned tt, w)
  | compute_list => (Returned (ws_computes w), w)
  | compute_begin_create_or_update c =>
      let c' := provision c in
      (Returned c',
       {| ws_computes := upsert c' (ws_computes w);
          ws_datastore := ws_datastore w;
          ws_role_assignments := ws_role_assignments w;
          ws_environments := ws_environments w;
          ws_jobs := ws_jobs w |})
  | compute_get n =>
      match List.find (λ c, bool_decide (compute_name c = n)) (ws_computes w) with
      | Some c => (Returned c, w)
      | None => (Raised (SdkError "ResourceNotFoundError" n), w)
      end
  | datastores_get n =>
      match ws_datastore w with
      | Some d => (Returned d, w)
      | None => (Raised (SdkError "ResourceNotFoundError" n), w)
      end
  | role_assignments_create scope n p =>
      if bool_decide ((scope, p) ∈ ws_role_assignments w)
      then (Raised (ResourceExistsError "RoleAssignmentExists"), w)
      else
        (Returned {| assignment_id :=
                       Some (scope +:+ "/providers/Microsoft.Authorization/roleAssignments/" +:+ n) |},
         {| ws_computes := ws_computes w;
            ws_datastore := ws_datastore w;
            ws_role_assignments := ws_role_assignments w ++ [(scope, p)];
            ws_environments := ws_environments w;
            ws_jobs := ws_jobs w |})
  | environments_create_or_update e =>
      (Returned {| env_name := env_name e;
                   env_description := env_description e;
                   build := build e;
                   version := Some (pretty (S (registrations (env_name e) (ws_environments w)))) |},
       {| ws_computes := ws_computes w;
          ws_datastore := ws_datastore w;
          ws_role_assignments := ws_role_assignments w;
          ws_environments := ws_environments w ++ [env_name e];
          ws_jobs := ws_jobs w |})
  | jobs_create_or_update p =>
      (Returned {| job_name := Some ("job-" +:+ pretty (S (length (ws_jobs w)))) |},
       {| ws_computes := ws_computes w;
          ws_datastore := ws_datastore w;
          ws_role_assignments := ws_role_assignments w;
          ws_environments := ws_environments w;
          ws_jobs := ws_jobs w ++ [p] |})
  end.

Definition workspace_sdk : SDK Workspace := {| handle := workspace_handle |}.

(** A fresh workspace: the default datastore and nothing else. *)
Definition fresh_workspace : Workspace :=
  {| ws_computes := [];
     ws_datastore := Some {| account_name := "mlstorage" |};
     ws_role_assignments := [];
     ws_environments := [];
     ws_jobs := [] |}.

(** A development machine with the settings file and the seven directories. *)
Definition dev_environ : gmap string string :=
  <["subscription_id" := "sub-0"]>
  (<["resource_group_name" := "rg-ml"]>
  (<["workspace_name" := "ws-ml"]> ∅)).

Definition dev_host (run : bool) : Host :=
  {| parse_args := Returned {| run := run |};
     environ := dev_environ;
     file_system := list_to_map ((λ d, (d, directory)) <$> directories);
     uuid4 := "6f1c2a9e-0000-4000-8000-000000000001" |}.

Global Instance call_eq_dec : EqDecision call.
Proof. solve_decision. Defined.
Global Instance value_eq_dec : EqDecision value.
Proof. solve_decision. Defined.
Global Instance outcome_eq_dec {A} `{EqDecision A} : EqDecision (outcome A).
Proof. solve_decision. Defined.
Global Instance event_eq_dec : EqDecision event.
Proof. solve_decision. Defined.

(** An SDK that raises [e] on the call [c0] and behaves as [sdk] elsewhere. *)
Definition failing_at {S} (c0 : call) (e : exn) (sdk : SDK S) : SDK S :=
  {| handle := λ c s, if decide (c = c0) then (Raised e, s) else handle sdk c s |}.

(** ** Transcript predicates *)

(** Every event a computation shows satisfies [P], from any state. *)
Definition emits {S A} (P : event → Prop) (m : M S A) : Prop :=
  ∀ s, Forall P (transcript (m s)).

(** The events of a transcript that [f] picks, in order, as [f] shows them. *)
Fixpoint select {A} (f : event → option A) (t : list event) : list A :=
  match t with
  | [] => []
  | ev :: t' =>
      match f ev with
      | Some a => a :: select f t'
      | None => select f t'
      end
  end.

(** The SDK calls of a transcript, in order. *)
Definition calls : list event → list call :=
  select (λ ev, match ev with Invoke c _ => Some c | Print _ => None end).

(** The compute a successful [compute.get] returned. *)
Definition fetched_compute (ev : event) : option AmlCompute :=
  match ev with
  | Invoke (compute_get _) (Returned (VCompute c)) => Some c
  | _ => None
  end.

(** The compute a creation request is for. *)
Definition creation_request (ev : event) : option AmlCompute :=
  match ev with
  | Invoke (compute_begin_create_or_update c) _ => Some c
  | _ => None
  end.

(** The computes a successful listing returned. *)
Definition listing (ev : event) : option (list AmlCompute) :=
  match ev with
  | Invoke compute_list (Returned (VComputes l)) => Some l
  | _ => None
  end.

(** An environment registration: what was sent and what came back. *)
Definition registration (ev : event) : option (Environment * outcome value) :=
  match ev with
  | Invoke (environments_create_or_update e) o => Some (e, o)
  | _ => None
  end.

(** The pipeline of a submission. *)
Definition submission (ev : event) : option PipelineJob :=
  match ev with
  | Invoke (jobs_create_or_update p) _ => Some p
  | _ => None
  end.

(** The one exception the script handles: [ResourceExistsError] out of
    [role_assignments.create] (lines 95-104). *)
Definition handled (c : call) (e : exn) : Prop :=
  match c, e with
  | role_assignments_create _ _ _, ResourceExistsError _ => True
  | _, _ => False
  end.

(** A computation lets every exception of an SDK call through, except the
    handled one: a call that raised [e] is the last thing that happened and
    [e] is what the computation raises. *)
Definition propagates {S A} (m : M S A) : Prop :=
  ∀ s c e, Invoke c (Raised e) ∈ transcript (m s) →
    handled c e ∨
    (last (transcript (m s)) = Some (Invoke c (Raised e)) ∧ returned (m s) = Raised e).

(** ** Further notions the properties are stated with *)

(** The host [host] with another outcome of [parse_args]. *)
Definition with_args (host : Host) (o : outcome Namespace) : Host :=
  {| parse_args := o;
     environ := environ host;
     file_system := file_system host;
     uuid4 := uuid4 host |}.

(** A run with [f] applied to what it returned. *)
Definition map_result {S A B} (f : A → B) (r : result S A) : result S B :=
  Run (outcome_map f (returned r)) (final r) (transcript r).

(** A role-assignment request with its outcome. *)
Definition role_request (ev : event)
    : option (string * string * RoleAssignmentCreateParameters * outcome value) :=
  match ev with
  | Invoke (role_assignments_create scope n p) o => Some (scope, n, p, o)
  | _ => None
  end.

(** The compute a successful creation request returned. *)
Definition created_compute (ev : event) : option AmlCompute :=
  match ev with
  | Invoke (compute_begin_create_or_update _) (Returned (VCompute c)) => Some c
  | _ => None
  end.

(** A computation keeps the invariant [I] of the platform state. *)
Definition preserves {S A} (I : S → Prop) (m : M S A) : Prop :=
  ∀ s, I s → I (final (m s)).

(** An edge read by component names: source component, its output port,
    target component, its input port. *)
Definition connection (p : PipelineJob) (e : edge)
    : option (string * string * string * string) :=
  src ← component_of p (source e);
  dst ← component_of p (target e);
  Some (name src, source_output e, name dst, target_input e).

Definition connections (p : PipelineJob) : list (string * string * string * string) :=
  omap (connection p) (edges p).

(** The ports of an edge are declared by the components at its ends. *)
Definition ports_declared (p : PipelineJob) (e : edge) : bool :=
  match component_of p (source e), component_of p (target e) with
  | Some src, Some dst =>
      bool_decide (source_output e ∈ (outputs src).*1) &&
      bool_decide (target_input e ∈ (inputs dst).*1)
  | _, _ => false
  end.

(** The source of an edge is declared before its target. *)
Definition forward (p : PipelineJob) (e : edge) : bool :=
  match position (source e) (jobs p), position (target e) (jobs p) with
  | Some i, Some j => bool_decide (i < j)%nat
  | _, _ => false
  end.

(** *** Machines and workspaces the properties are tried on *)

(** The workspace after a first run of the script without [--run]. *)
Definition provisioned_workspace : Workspace :=
  final (main workspace_sdk (dev_host false) fresh_workspace).

(** The pipeline the script declares on a fresh workspace. *)
Definition reference_pipeline : PipelineJob :=
  nn_pipeline (train_pytorch_model "pytorch-onnx-env:1") (convert_onnx_to_c "onnx2c-env:1")
    (compile_and_test "gcc-env:1") (build_minimal_binary "gcc-env:1").

(** The workspace has a compute named [cpu-cluster]. *)
Definition has_cluster (w : Workspace) : Prop :=
  "cpu-cluster" ∈ compute_name <$> ws_computes w.

(** A development machine on which two of the seven directories are absent. *)
Definition host_missing_directories : Host :=
  {| parse_args := Returned {| run := false |};
     environ := dev_environ;
     file_system :=
       list_to_map
         ((λ d, (d, directory)) <$>
            [ "environments/pytorch"; "environments/onnx2c"; "src/pytorch_train";
              "src/compile_test"; "src/minimal_binary" ]);
     uuid4 := "6f1c2a9e-0000-4000-8000-000000000002" |}.

(** A machine on which each of the seven paths is a regular file. *)
Definition host_regular_files : Host :=
  {| parse_args := Returned {| run := false |};
     environ := dev_environ;
     file_system := list_to_map ((λ d, (d, regular_file)) <$> directories);
     uuid4 := "6f1c2a9e-0000-4000-8000-000000000003" |}.

(** A machine whose settings file does not define [resource_group_name]. *)
Definition host_unset : Host :=
  {| parse_args := Returned {| run := false |};
     environ := delete "resource_group_name" dev_environ;
     file_system := list_to_map ((λ d, (d, directory)) <$> directories);
     uuid4 := "6f1c2a9e-0000-4000-8000-000000000004" |}.

(** A cluster created by hand, without a managed identity. *)
Definition cluster_without_identity : AmlCompute :=
  {| compute_name := "cpu-cluster";
     compute_type := "amlcompute";
     vm_size := "Standard_DS3_v2";
     min_instances := 0;
     max_instances := 2;
     idle_time_before_scale_down := 120;
     identity := None |}.

Definition workspace_without_identity : Workspace :=
  {| ws_computes := [cluster_without_identity];
     ws_datastore := Some {| account_name := "mlstorage" |};
     ws_role_assignments := [];
     ws_environments := [];
     ws_jobs := [] |}.

(** The registration request for [gcc-env], and a platform on which the
    image build behind it fails. *)
Definition gcc_env : Environment :=
  {| env_name := "gcc-env";
     env_description := "Environment for C compilation and testing";
     build := {| path := "environments/gcc" |};
     version := None |}.

Definition build_failure : exn := SdkError "HttpResponseError" "image build failed".

Definition failing_sdk : SDK Workspace :=
  failing_at (environments_create_or_update gcc_env) build_failure workspace_sdk.

(** The role-assignment request of a run on [dev_host] against the
    reference workspace. *)
Definition reference_scope : string :=
  "/subscriptions/sub-0/resourceGroups/rg-ml/providers/Microsoft.Storage/storageAccounts/mlstorage".

Definition reference_role_assignment : RoleAssignmentCreateParameters :=
  {| role_definition_id :=
       "/subscriptions/sub-0/providers/Microsoft.Authorization/roleDefinitions/ba92f5b4-2d11-453d-a403-e96b0029c9fe";
     role_principal_id := Some "principal-of-cpu-cluster";
     principal_type := "ServicePrincipal" |}.

(** *** Notions of the further properties *)

(** The datastore a successful [datastores.get] returned. *)
Definition fetched_datastore (ev : event) : option Datastore :=
  match ev with
  | Invoke (datastores_get _) (Returned (VDatastore d)) => Some d
  | _ => None
  end.

(** An SDK call without its arguments; a registration keeps the name of the
    environment. *)
Inductive operation : Type :=
| credential_op
| ml_client_op
| authorization_client_op
| list_op
| create_op
| get_op
| datastore_op
| role_assignment_op
| register_op (name : string)
| submit_op.

Definition operation_of (c : call) : operation :=
  match c with
  | new_DefaultAzureCredential => credential_op
  | new_MLClient _ _ _ => ml_client_op
  | new_AuthorizationManagementClient _ => authorization_client_op
  | compute_list => list_op
  | compute_begin_create_or_update _ => create_op
  | compute_get _ => get_op
  | datastores_get _ => datastore_op
  | role_assignments_create _ _ _ => role_assignment_op
  | environments_create_or_update e => register_op (env_name e)
  | jobs_create_or_update _ => submit_op
  end.

(** The SDK calls of [main] in the order of its text (lines 27-245), for a
    run that creates the cluster or not and submits the pipeline or not. *)
Definition script_order (create submit : bool) : list operation :=
  [credential_op; ml_client_op; list_op]
  ++ (if create then [create_op] else [])
  ++ [get_op; datastore_op; credential_op; authorization_client_op; role_assignment_op;
      register_op "pytorch-onnx-env"; register_op "onnx2c-env"; register_op "gcc-env"]
  ++ (if submit then [submit_op] else []).

(** The keyword arguments of a step are the inputs its component declares:
    each one bound, once, and nothing else passed. *)
Definition inputs_bound (st : Step) : bool :=
  bool_decide ((bindings st).*1 = (inputs (component st)).*1).

(** A pipeline output is an output port that the component of one of the
    nodes declares. *)
Definition output_resolves (p : PipelineJob) (o : string * NodeOutput) : bool :=
  match component_of p (owner o.2) with
  | Some c => bool_decide (output_name o.2 ∈ (outputs c).*1)
  | None => false
  end.

(** The step runs on the cluster that lines 57-72 create or reuse. *)
Definition runs_on_cluster (st : Step) : bool :=
  bool_decide (compute (component st) = compute_name compute_cluster).

(** ** The monad's equations *)

Section Monad.
Context {S : Type}.
Implicit Types s : S.

Lemma bind_transcript {A B} (m : M S A) (k : A → M S B) s :
  transcript ((x ← m; k x) s) =
  transcript (m s) ++
    match returned (m s) with
    | Returned a => transcript (k a (final (m s)))
    | Raised _ => []
    end.
Proof.
  unfold mbind, M_bind, bind. destruct (returned (m s)); simpl; [done|].
  by rewrite app_nil_r.
Qed.

Lemma bind_returned {A B} (m : M S A) (k : A → M S B) s :
  returned ((x ← m; k x) s) =
    match returned (m s) with
    | Returned a => returned (k a (final (m s)))
    | Raised e => Raised e
    end.
Proof. unfold mbind, M_bind, bind. by destruct (returned (m s)). Qed.

Lemma bind_final {A B} (m : M S A) (k : A → M S B) s :
  final ((x ← m; k x) s) =
    match returned (m s) with
    | Returned a => final (k a (final (m s)))
    | Raised e => final (m s)
    end.
Proof. unfold mbind, M_bind, bind. by destruct (returned (m s)). Qed.

Lemma bind_Returned {A} (m : M S A) s a s1 t1 :
  m s = Run (Returned a) s1 t1 →
  ∀ B (k : A → M S B),
    (x ← m; k x) s =
    Run (returned (k a s1)) (final (k a s1)) (t1 ++ transcript (k a s1)).
Proof. intros E B k. unfold mbind, M_bind, bind. by rewrite E. Qed.

Lemma bind_Raised {A} (m : M S A) s e s1 t1 :
  m s = Run (Raised e) s1 t1 →
  ∀ B (k : A → M S B), (x ← m; k x) s = Run (Raised e) s1 t1.
Proof. intros E B k. unfold mbind, M_bind, bind. by rewrite E. Qed.

Lemma bind_assoc {A B C} (m : M S A) (f : A → M S B) (g : B → M S C) s :
  (y ← (x ← m; f x); g y) s = (x ← m; y ← f x; g y) s.
Proof.
  unfold mbind, M_bind, bind.
  destruct (m s) as [[a|e] s1 t1]; cbn [returned final transcript]; [|done].
  destruct (f a s1) as [[b|e] s2 t2]; cbn [returned final transcript]; [|done].
  by rewrite app_assoc.
Qed.

Lemma bind_mret_l {A B} (a : A) (f : A → M S B) s : (x ← mret a; f x) s = f a s.
Proof.
  unfold mbind, M_bind, bind, mret, M_ret, ret. cbn [returned final transcript].
  by destruct (f a s).
Qed.

Lemma invoke_Returned (sdk : SDK S) c s x s' :
  handle sdk c s = (Returned x, s') →
  invoke sdk c s = Run (Returned x) s' [Invoke c (Returned (to_value c x))].
Proof. intros E. unfold invoke. by rewrite E. Qed.

Lemma invoke_Raised (sdk : SDK S) c s e s' :
  handle sdk c s = (Raised e, s') →
  invoke sdk c s = Run (Raised e) s' [Invoke c (Raised e)].
Proof. intros E. unfold invoke. by rewrite E. Qed.

Lemma bind_ret_l {A B} (a : A) (f : A → M S B) s : (x ← ret a; f x) s = f a s.
Proof. apply (bind_mret_l a f s). Qed.

Lemma bind_print {B} line (k : unit → M S B) s :
  (x ← print line; k x) s =
  Run (returned (k tt s)) (final (k tt s)) (Print line :: transcript (k tt s)).
Proof. done. Qed.

Lemma bind_raise {A B} e (k : A → M S B) s : (x ← raise e; k x) s = Run (Raised e) s [].
Proof. done. Qed.

Lemma bind_lift {A B} (o : outcome A) (k : A → M S B) s :
  (x ← lift o; k x) s =
    match o with
    | Returned a => k a s
    | Raised e => Run (Raised e) s []
    end.
Proof.
  unfold mbind, M_bind, bind, lift. cbn [returned final transcript].
  destruct o as [a|e]; [|done]. by destruct (k a s).
Qed.

Lemma bind_subscript {B} d key (k : string → M S B) s :
  (x ← subscript d key; k x) s =
    match d !! key with
    | Some v => k v s
    | None => Run (Raised (KeyError key)) s []
    end.
Proof.
  unfold mbind, M_bind, bind, subscript.
  destruct (d !! key) as [v|]; [|done]. cbn [returned final transcript ret].
  by destruct (k v s).
Qed.

Lemma run_mret {A} (a : A) s : (mret a : M S A) s = Run (Returned a) s [].
Proof. done. Qed.

Lemma select_app {A} (f : event → option A) t1 t2 :
  select f (t1 ++ t2) = select f t1 ++ select f t2.
Proof.
  induction t1 as [|ev t1 IH]; [done|]. simpl. rewrite IH. by destruct (f ev).
Qed.

Lemma select_cons_None {A} (f : event → option A) ev t :
  f ev = None → select f (ev :: t) = select f t.
Proof. intros H. simpl. by rewrite H. Qed.

Lemma select_cons_Some {A} (f : event → option A) ev t a :
  f ev = Some a → select f (ev :: t) = a :: select f t.
Proof. intros H. simpl. by rewrite H. Qed.

Lemma select_empty {A} (f : event → option A) : select f [] = [].
Proof. done. Qed.

Lemma select_nil {A} (f : event → option A) t :
  Forall (λ ev, f ev = None) t → select f t = [].
Proof. induction 1 as [|ev t Hev _ IH]; [done|]. simpl. by rewrite Hev. Qed.

Lemma elem_of_select {A} (f : event → option A) t ev a :
  ev ∈ t → f ev = Some a → a ∈ select f t.
Proof.
  intros Hin Hf. induction Hin as [ev t|ev ev' t _ IH]; simpl.
  - rewrite Hf. left.
  - destruct (f ev'); [right|]; by apply IH.
Qed.

Lemma elem_of_bind {A B} (m : M S A) (k : A → M S B) s ev :
  ev ∈ transcript ((x ← m; k x) s) ↔
  ev ∈ transcript (m s) ∨
  ∃ a, returned (m s) = Returned a ∧ ev ∈ transcript (k a (final (m s))).
Proof.
  rewrite bind_transcript, elem_of_app. split.
  - intros [H|H]; [by left|]. destruct (returned (m s)) as [a|e]; [|by inversion H].
    right. by exists a.
  - intros [H|(a & Ha & H)]; [by left|]. right. by rewrite Ha.
Qed.

Lemma for_each_print (f : string → string) (l : list string) s :
  for_each l (λ x, print (f x)) s = Run (Returned tt) s ((λ x, Print (f x)) <$> l).
Proof.
  induction l as [|x l IH]; [done|].
  simpl. unfold mbind, M_bind, bind. simpl. by rewrite IH.
Qed.

(** *** [emits] through the combinators *)

Lemma emits_ret {A} P (a : A) : emits (S := S) P (ret a).
Proof. intros s. apply Forall_nil_2. Qed.

Lemma emits_mret {A} P (a : A) : emits (S := S) P (mret a).
Proof. intros s. apply Forall_nil_2. Qed.

Lemma emits_raise {A} P e : emits (S := S) (A := A) P (raise e).
Proof. intros s. apply Forall_nil_2. Qed.

Lemma emits_lift {A} P (o : outcome A) : emits (S := S) P (lift o).
Proof. intros s. apply Forall_nil_2. Qed.

Lemma emits_print P line : P (Print line) → emits (S := S) P (print line).
Proof. intros H s. apply Forall_cons_2; [done|apply Forall_nil_2]. Qed.

Lemma emits_invoke P (sdk : SDK S) c :
  (∀ r, P (Invoke c r)) → emits P (invoke sdk c).
Proof.
  intros H s. unfold invoke. destruct (handle sdk c s) as [r s'].
  apply Forall_cons_2; [done|apply Forall_nil_2].
Qed.

Lemma emits_bind {A B} P (m : M S A) (k : A → M S B) :
  emits P m → (∀ a, emits P (k a)) → emits P (x ← m; k x).
Proof.
  intros Hm Hk s. rewrite bind_transcript. apply Forall_app. split; [apply Hm|].
  destruct (returned (m s)); [apply Hk|apply Forall_nil_2].
Qed.

Lemma emits_subscript P d k : emits (S := S) P (subscript d k).
Proof. unfold subscript. destruct (d !! k); [apply emits_ret|apply emits_raise]. Qed.

Lemma emits_for_each {A} P (l : list A) (body : A → M S unit) :
  (∀ x, emits P (body x)) → emits P (for_each l body).
Proof.
  intros H. induction l as [|x l IH]; simpl; [apply emits_ret|].
  apply emits_bind; [apply H|done].
Qed.

Lemma emits_for_fold {A B} P (body : B → A → M S B) acc (l : list A) :
  (∀ b x, emits P (body b x)) → emits P (for_fold body acc l).
Proof.
  intros H. revert acc. induction l as [|x l IH]; intros acc; simpl; [apply emits_ret|].
  apply emits_bind; [apply H|done].
Qed.

Lemma emits_try_except {A} P (body : M S A) (handler : string → M S A) :
  emits P body → (∀ msg, emits P (handler msg)) →
  emits P (try_except_ResourceExistsError body handler).
Proof.
  intros Hb Hh s. unfold try_except_ResourceExistsError.
  destruct (returned (body s)) as [a|[]]; try apply Hb.
  simpl. apply Forall_app. split; [apply Hb|apply Hh].
Qed.

(** *** [propagates] through the combinators *)

Lemma propagates_silent {A} (m : M S A) :
  emits (λ ev, ∀ c e, ev ≠ Invoke c (Raised e)) m → propagates m.
Proof.
  intros H s c e Hin. specialize (H s).
  rewrite Forall_forall in H. by destruct (H _ Hin c e).
Qed.

Lemma propagates_invoke (sdk : SDK S) c : propagates (invoke sdk c).
Proof.
  intros s c' e. unfold invoke. destruct (handle sdk c s) as [r s'].
  simpl. rewrite list_elem_of_singleton. intros [= <- Hr].
  right. split; [by rewrite Hr|]. by destruct r; simplify_eq/=.
Qed.

Lemma propagates_bind {A B} (m : M S A) (k : A → M S B) :
  propagates m → (∀ a, propagates (k a)) → propagates (x ← m; k x).
Proof.
  intros Hm Hk s c e.
  rewrite elem_of_bind, bind_transcript, bind_returned.
  intros [Hin|(a & Ha & Hin)].
  - destruct (Hm s c e Hin) as [?|[Hlast Hret]]; [by left|right].
    rewrite Hret, app_nil_r. done.
  - rewrite Ha. destruct (Hk a _ c e Hin) as [?|[Hlast Hret]]; [by left|right].
    split; [|done]. rewrite last_app, Hlast. done.
Qed.

End Monad.

(** ** Proof automation *)

(** Discharges [emits P m] for a computation built from the combinators. *)
Ltac emits_step :=
  first
    [ apply emits_bind; [|intros ?]
    | apply emits_mret
    | apply emits_ret
    | apply emits_raise
    | apply emits_lift
    | apply emits_subscript
    | apply emits_print
    | lazymatch goal with
      | |- emits ?P (invoke ?sdk ?c) => apply (emits_invoke P sdk c); intros ?
      end
    | apply emits_for_each; intros ?
    | apply emits_for_fold; intros ? ?
    | apply emits_try_except; [|intros ?]
    | progress cbv beta zeta
    | case_match ].

Ltac solve_emits := repeat emits_step; simpl; try done.

(** ** The phases of [main] *)

Section Phases.
Context {S : Type} (sdk : SDK S) (host : Host).
Implicit Types s : S.

Lemma emits_connect P :
  (∀ r, P (Invoke new_DefaultAzureCredential r)) →
  (∀ a b c r, P (Invoke (new_MLClient a b c) r)) →
  emits P (connect sdk host).
Proof. intros H1 H2. unfold connect, os_environ. solve_emits. Qed.

Lemma emits_check_directories P :
  (∀ l, P (Print l)) → emits (S := S) P (check_directories host).
Proof. intros H. unfold check_directories. solve_emits. Qed.

Lemma emits_create_compute P :
  (∀ l, P (Print l)) →
  (∀ r, P (Invoke compute_list r)) →
  (∀ r, P (Invoke (compute_begin_create_or_update compute_cluster) r)) →
  (∀ r, P (Invoke (compute_get "cpu-cluster") r)) →
  emits P (create_compute sdk).
Proof. intros H1 H2 H3 H4. unfold create_compute. solve_emits. Qed.

Lemma emits_assign_role P pid :
  (∀ l, P (Print l)) →
  (∀ r, P (Invoke (datastores_get "workspaceblobstore") r)) →
  (∀ r, P (Invoke new_DefaultAzureCredential r)) →
  (∀ a r, P (Invoke (new_AuthorizationManagementClient a) r)) →
  (∀ a b c r, P (Invoke (role_assignments_create a b c) r)) →
  emits P (assign_role sdk host pid).
Proof. intros H1 H2 H3 H4 H5. unfold assign_role, os_environ. solve_emits. Qed.

Lemma emits_create_environments P :
  (∀ l, P (Print l)) →
  (∀ e r, P (Invoke (environments_create_or_update e) r)) →
  emits P (create_environments sdk).
Proof.
  intros H1 H2. unfold create_environments, register_environment. solve_emits.
Qed.

Lemma emits_create_pipeline P latest_envs :
  (∀ l, P (Print l)) → emits (S := S) P (create_pipeline latest_envs).
Proof. intros H. unfold create_pipeline. solve_emits. Qed.

Lemma emits_submit P args pipeline :
  (∀ l, P (Print l)) →
  (∀ r, P (Invoke (jobs_create_or_update pipeline) r)) →
  emits P (submit sdk args pipeline).
Proof. intros H1 H2. unfold submit. solve_emits. Qed.

End Phases.

(** [Forall P] over the transcript of one phase of [main]. *)
Ltac phase_emits :=
  first
    [ apply emits_connect
    | apply emits_check_directories
    | apply emits_create_compute
    | apply emits_assign_role
    | apply emits_create_environments
    | apply emits_create_pipeline
    | apply emits_submit ];
  intros; simpl; try done.

(** *** Stepping through a run

    The tactics below work on a hypothesis [H : r = m s], where [m] is a
    chain of binds: each step runs the computation at the head of the chain,
    splits on whether it returned or raised, and leaves [H] with what is
    left to run.  At the end [H] gives [r] in full. *)

Ltac rewrite_head H X pf :=
  let E := fresh "E" in
  pose proof (pf : X = _) as E; rewrite E in H; clear E.

Ltac simpl_head H :=
  lazymatch type of H with
  | context [@mbind ?M ?I ?A ?B ?k ?m ?s] =>
      let X := constr:(@mbind M I A B k m s) in
      lazymatch m with
      | @mbind _ _ _ _ ?f ?m' => rewrite_head H X (bind_assoc m' f k s)
      | print ?l => rewrite_head H X (bind_print l k s)
      | mret ?a => rewrite_head H X (bind_mret_l a k s)
      | ret ?a => rewrite_head H X (bind_ret_l a k s)
      | raise ?e => rewrite_head H X (bind_raise e k s)
      | lift ?o => rewrite_head H X (bind_lift o k s)
      | subscript ?d ?key => rewrite_head H X (bind_subscript d key k s)
      end
  | context [@mret ?M ?I ?A ?a ?s] =>
      let X := constr:(@mret M I A a s) in
      rewrite_head H X (run_mret a s)
  end.

Ltac simpl_run H :=
  cbn [returned final transcript print raise app] in H;
  repeat (simpl_head H; cbn [returned final transcript print raise app] in H).

Ltac push_run E H :=
  simpl_run H;
  lazymatch type of E with
  | ?m ?s = Run (Returned ?a) ?s1 ?t1 =>
      lazymatch type of H with
      | context [@mbind ?M ?I ?A ?B ?k m s] =>
          let X := constr:(@mbind M I A B k m s) in
          rewrite_head H X (bind_Returned m s a s1 t1 E B k)
      | context [m s] => rewrite E in H
      end
  | ?m ?s = Run (Raised ?e) ?s1 ?t1 =>
      lazymatch type of H with
      | context [@mbind ?M ?I ?A ?B ?k m s] =>
          let X := constr:(@mbind M I A B k m s) in
          rewrite_head H X (bind_Raised m s e s1 t1 E B k)
      | context [m s] => rewrite E in H
      end
  end;
  simpl_run H.

(** Runs the phase [t] (a phase applied to a state). *)
Tactic Notation "run" constr(t) "in" ident(H) "as" simple_intropattern(p) :=
  let E := fresh "Erun" in
  destruct t as p eqn:E;
  push_run E H.

(** The same, recording that every event of the phase satisfies [P]. *)
Tactic Notation "run" constr(t) "emitting" constr(P) "in" ident(H)
    "as" simple_intropattern(p) :=
  let Hev := fresh "Hev" in
  assert (Forall P (transcript t)) as Hev by phase_emits;
  let E := fresh "Erun" in
  destruct t as p eqn:E;
  cbn [transcript] in Hev;
  push_run E H.

(** Runs the SDK call [c] in state [s]. *)
Tactic Notation "call" constr(sdk) constr(c) constr(s) "in" ident(H)
    "as" simple_intropattern(p) :=
  let E := fresh "Ecall" in
  destruct (handle sdk c s) as p eqn:E;
  [ apply invoke_Returned in E | apply invoke_Raised in E ];
  cbn [to_value] in E;
  push_run E H.

(** One step of a run: the next SDK call, phase or branch.  A phase all of
    whose events satisfy [P] is run as a whole; any other is opened. *)
Ltac step P H :=
  simpl_run H;
  lazymatch type of H with
  | context [@mbind _ _ _ _ _ (invoke ?sdk ?c) ?s] => call sdk c s in H as [[?a|?e] ?s]
  | context [@mbind _ _ _ _ _ (connect ?sdk ?host) ?s] =>
      first [ run (connect sdk host s) emitting P in H as [[?a|?e] ?s ?t]
            | unfold connect, os_environ in H ]
  | context [@mbind _ _ _ _ _ (check_directories ?host) ?s] =>
      run (check_directories host s) emitting P in H as [[[]|?e] ?s ?t]
  | context [@mbind _ _ _ _ _ (create_compute ?sdk) ?s] =>
      first [ run (create_compute sdk s) emitting P in H as [[?a|?e] ?s ?t]
            | unfold create_compute in H ]
  | context [@mbind _ _ _ _ _ (assign_role ?sdk ?host ?p) ?s] =>
      first [ run (assign_role sdk host p s) emitting P in H as [[[]|?e] ?s ?t]
            | unfold assign_role, os_environ in H ]
  | context [@mbind _ _ _ _ _ (create_environments ?sdk) ?s] =>
      first [ run (create_environments sdk s) emitting P in H as [[?a|?e] ?s ?t]
            | unfold create_environments, register_environment in H;
              cbn [for_fold env_configs] in H ]
  | context [@mbind _ _ _ _ _ (create_pipeline ?l) ?s] =>
      run (create_pipeline l s) emitting P in H as [[?a|?e] ?s ?t]
  | context [submit ?sdk ?a ?p ?s] =>
      first [ run (submit sdk a p s) emitting P in H as [[[]|?e] ?s ?t]
            | unfold submit in H ]
  | context [if ?b then _ else _] => destruct b eqn:?
  | context [match ?o with Some _ => _ | None => _ end] => destruct o eqn:?
  | context [match ?o with Returned _ => _ | Raised _ => _ end] => destruct o eqn:?
  end;
  simpl_run H.

(** Splits a membership in a concrete transcript into its cases. *)
Ltac split_elem_of H :=
  repeat first
    [ rewrite elem_of_app in H
    | rewrite elem_of_cons in H
    | rewrite elem_of_nil in H ];
  destruct_or?; try done.

(** Computes [select f] over the transcript in [H], once the run has been
    stepped through: the phases run as a whole contribute nothing when
    [Hnone] says so of every transcript whose events satisfy the predicate
    they were run with. *)
Ltac select_head H Hnone :=
  lazymatch type of H with
  | context [select ?f (?a ++ ?b)] => rewrite (select_app f a b) in H
  | context [select ?f (?ev :: ?l)] =>
      first [ rewrite (select_cons_None f ev l eq_refl) in H
            | rewrite (select_cons_Some f ev l _ eq_refl) in H ]
  | context [select ?f []] => rewrite (select_empty f) in H
  | context [select ?f ?t] =>
      match goal with
      | Hf : Forall _ t |- _ => rewrite (Hnone t Hf) in H
      end
  end.

Ltac select_in H Hnone := repeat select_head H Hnone; cbn [app] in H.

(** The same in the goal. *)
Ltac select_goal_head Hnone :=
  lazymatch goal with
  | |- context [select ?f (?a ++ ?b)] => rewrite (select_app f a b)
  | |- context [select ?f (?ev :: ?l)] =>
      first [ rewrite (select_cons_None f ev l eq_refl)
            | rewrite (select_cons_Some f ev l _ eq_refl) ]
  | |- context [select ?f []] => rewrite (select_empty f)
  | |- context [select ?f ?t] =>
      match goal with
      | Hf : Forall _ t |- _ => rewrite (Hnone t Hf)
      end
  end.

Ltac select_goal Hnone := repeat select_goal_head Hnone; cbn [app].

(** Records [Forall Q t] for every phase that was run as a whole and whose
    events all satisfy [Q]. *)
Ltac emitted Q :=
  repeat match goal with
         | E : ?m ?s = Run _ _ ?t |- _ =>
             is_var t;
             lazymatch goal with
             | _ : Forall Q t |- _ => fail
             | _ => idtac
             end;
             let H := fresh "Hev" in
             assert (Forall Q (transcript (m s))) as H by phase_emits;
             rewrite E in H; cbn [transcript] in H
         end.

(** ** Properties of [main] *)

Section LocalChecks.
Context {S : Type} (sdk : SDK S) (host : Host).
Implicit Types s : S.

(** *** Local checks *)

Lemma os_path_exists_false p :
  os_path_exists host p = false ↔ file_system host !! p = None.
Proof.
  unfold os_path_exists. rewrite bool_decide_eq_false, <-eq_None_not_Some. done.
Qed.

Lemma elem_of_missing_directories d :
  d ∈ missing_directories host ↔ d ∈ directories ∧ file_system host !! d = None.
Proof.
  unfold missing_directories.
  rewrite !list_elem_of_In, filter_In, negb_true_iff, os_path_exists_false. done.
Qed.

Lemma missing_directories_nil :
  missing_directories host = [] ↔ ∀ d, d ∈ directories → is_Some (file_system host !! d).
Proof.
  split.
  - intros Hnil d Hd. destruct (file_system host !! d) eqn:E; [by eexists|].
    assert (d ∈ missing_directories host) as Hin by by apply elem_of_missing_directories.
    rewrite Hnil in Hin. by apply elem_of_nil in Hin.
  - intros H. destruct (missing_directories host) as [|d l] eqn:E; [done|].
    assert (d ∈ missing_directories host) as Hin by (rewrite E; left).
    apply elem_of_missing_directories in Hin as [Hd Hnone].
    destruct (H d Hd) as [k Hk]. congruence.
Qed.

Lemma check_directories_present s :
  missing_directories host = [] →
  check_directories host s =
    Run (Returned tt) s [Print "All required directories are present."].
Proof. intros H. unfold check_directories. by rewrite H. Qed.

Lemma check_directories_missing s :
  missing_directories host ≠ [] →
  check_directories host s =
    Run (Raised (FileNotFoundError
           "One or more required directories are missing. Please create them and try again."))
        s
        (Print "The following required directories are missing:"
         :: ((λ d, Print (" - " +:+ d)) <$> missing_directories host)).
Proof.
  intros H. unfold check_directories.
  destruct (missing_directories host) as [|d l]; [done|].
  unfold mbind, M_bind, bind. cbn [print returned final transcript].
  rewrite (for_each_print (λ d, " - " +:+ d)). simpl. by rewrite app_nil_r.
Qed.

Lemma create_compute_starts s :
  ∃ o rest,
    transcript (create_compute sdk s) =
      Print "Creating compute cluster..." :: Invoke compute_list o :: rest.
Proof.
  remember (create_compute sdk s) as r eqn:Hr. unfold create_compute in Hr.
  simpl_run Hr.
  call sdk compute_list s in Hr as [[l|e] s1]; subst r; simpl; eauto.
Qed.

(** What [main] does once the directory check has passed. *)
Lemma main_proceeds s args :
  missing_directories host = [] →
  returned (connect sdk host s) = Returned args →
  ∃ o rest,
    transcript (main sdk host s) =
      transcript (connect sdk host s) ++
      Print "All required directories are present."
      :: Print "Creating compute cluster..."
      :: Invoke compute_list o :: rest.
Proof.
  intros Hm Hc. remember (main sdk host s) as r eqn:Hr. unfold main, setup in Hr.
  run (connect sdk host s) in Hr as [[a|e] s1 t0]; simpl in Hc; [|done].
  injection Hc as ->. subst r. cbn [transcript].
  pose proof (check_directories_present s1 Hm) as Ecd.
  rewrite ?bind_assoc, (bind_Returned _ _ _ _ _ Ecd). cbn [transcript].
  rewrite bind_assoc, bind_transcript.
  destruct (create_compute_starts s1) as (o & rest & ->).
  eexists o, _. simpl. done.
Qed.

Lemma main_connect_raised s e :
  returned (connect sdk host s) = Raised e →
  main sdk host s = Run (Raised e) (final (connect sdk host s)) (transcript (connect sdk host s)).
Proof.
  intros Hc. remember (main sdk host s) as r eqn:Hr. unfold main, setup in Hr.
  run (connect sdk host s) in Hr as [[a|e'] s1 t0]; by simplify_eq/=.
Qed.

(** C2: when a required path is absent the script prints the listing of
    exactly the absent paths and raises [FileNotFoundError] with no request
    sent to the platform; when none is absent it goes on to provisioning.
    The listing is printed by the runs that get past the workspace
    connection of lines 22-32; the others raise there. *)
Theorem missing_directories_abort s :
  let r := main sdk host s in
  (∀ d, d ∈ missing_directories host ↔ d ∈ directories ∧ file_system host !! d = None) ∧
  (missing_directories host ≠ [] →
     (∃ e, returned r = Raised e) ∧
     Forall (λ ev, is_remote_event ev = false) (transcript r) ∧
     (∀ args, returned (connect sdk host s) = Returned args →
        returned r = Raised (FileNotFoundError
          "One or more required directories are missing. Please create them and try again.") ∧
        transcript r =
          transcript (connect sdk host s) ++
          Print "The following required directories are missing:"
          :: ((λ d, Print (" - " +:+ d)) <$> missing_directories host))) ∧
  (missing_directories host = [] →
     ∀ args, returned (connect sdk host s) = Returned args →
       ∃ o rest,
         transcript r =
           transcript (connect sdk host s) ++
           Print "All required directories are present."
           :: Print "Creating compute cluster..."
           :: Invoke compute_list o :: rest).
Proof.
  intros r. subst r. split; [apply elem_of_missing_directories|]. split.
  - intros Hm. remember (main sdk host s) as r eqn:Hr. unfold main, setup in Hr.
    run (connect sdk host s) emitting (λ ev, is_remote_event ev = false) in Hr
      as [[args|e] s1 t0].
    + pose proof (check_directories_missing s1 Hm) as Ecd. push_run Ecd Hr.
      subst r. simpl. split; [by eexists|]. split; [|by intros ? [= <-]].
      apply Forall_app. split; [done|].
      apply Forall_cons. split; [done|]. by apply Forall_fmap, Forall_true.
    + subst r. simpl. split; [by eexists|]. split; [done|]. by intros.
  - intros Hm args Hc. by apply main_proceeds with args.
Qed.

(** C10: the layout check asks only whether each path exists.  If every one
    of the seven resolves to something, a regular file included, nothing is
    reported missing, the check prints its success line and the script goes
    on to list the computes; and two machines on which the same paths exist
    get the same answer, whatever the paths are. *)
Theorem layout_check_tests_existence_only :
  (∀ d, d ∈ directories → is_Some (file_system host !! d)) →
  missing_directories host = [] ∧
  (∀ s, check_directories host s =
          Run (Returned tt) s [Print "All required directories are present."]) ∧
  (∀ s args, returned (connect sdk host s) = Returned args →
     ∃ o rest,
       transcript (main sdk host s) =
         transcript (connect sdk host s) ++
         Print "All required directories are present."
         :: Print "Creating compute cluster..."
         :: Invoke compute_list o :: rest) ∧
  (∀ host', dom (file_system host') = dom (file_system host) →
     missing_directories host' = missing_directories host).
Proof.
  intros H. apply missing_directories_nil in H as Hm.
  split; [done|]. split; [by intros; apply check_directories_present|].
  split; [by intros; apply main_proceeds with args|].
  intros host' Hdom. unfold missing_directories.
  apply filter_ext. intros d. f_equal. unfold os_path_exists.
  apply bool_decide_ext. by rewrite <-!elem_of_dom, Hdom.
Qed.

(** C9: [main] reads [identity.principal_id] of the compute it fetched by
    name without testing [identity].  In a run in which
    [compute.get "cpu-cluster"] returned a cluster that carries no identity,
    [main] raises [AttributeError], that call is the last thing the run did,
    and neither the datastore lookup nor the role-assignment request is in
    the transcript. *)
Theorem cluster_without_identity_aborts s cluster :
  Invoke (compute_get "cpu-cluster") (Returned (VCompute cluster))
    ∈ transcript (main sdk host s) →
  identity cluster = None →
  returned (main sdk host s) =
    Raised (AttributeError "'NoneType' object has no attribute 'principal_id'") ∧
  last (transcript (main sdk host s)) =
    Some (Invoke (compute_get "cpu-cluster") (Returned (VCompute cluster))) ∧
  Forall (λ ev, match ev with
                | Invoke (datastores_get _) _
                | Invoke (role_assignments_create _ _ _) _ => False
                | _ => True
                end) (transcript (main sdk host s)).
Proof.
  intros Hin Hid.
  set (Q := λ ev, match ev with
                  | Invoke (datastores_get _) _
                  | Invoke (role_assignments_create _ _ _) _ => False
                  | _ => True
                  end).
  set (P := λ ev, fetched_compute ev = None).
  assert (∀ t, Forall P t → select fetched_compute t = []) as Hnone
    by (intros t Ht; by apply select_nil).
  apply (elem_of_select fetched_compute _ _ cluster) in Hin; [|done].
  remember (main sdk host s) as r eqn:Hr. unfold main, setup in Hr.
  repeat (step P Hr).
  all: subst r; cbn [returned final transcript] in *.
  all: select_in Hin Hnone; cbn [fetched_compute] in Hin.
  all: try by apply elem_of_nil in Hin.
  all: apply list_elem_of_singleton in Hin as ->; try congruence.
  all: split; [done|]; rewrite ?app_assoc, last_app; split; [done|].
  all: emitted Q; rewrite <-?app_assoc, ?Forall_app; repeat split; auto.
  all: by repeat constructor.
Qed.

End LocalChecks.

Section Provisioning.
Context {S : Type} (sdk : SDK S) (host : Host).
Implicit Types s : S.

Lemma first_unset_Some key :
  key ∈ required_variables → environ host !! key = None →
  ∃ key', first_unset (environ host) = Some key' ∧ environ host !! key' = None.
Proof.
  intros Hkey Hnone. unfold first_unset.
  destruct (List.find _ required_variables) as [key'|] eqn:E.
  - apply find_some in E as [_ E]. apply bool_decide_eq_true in E. eauto.
  - apply list_elem_of_In in Hkey. apply (find_none _ _ E) in Hkey.
    by apply bool_decide_eq_false in Hkey.
Qed.

(** C7: if one of [subscription_id], [resource_group_name] and
    [workspace_name] is not in the environment, [main] raises, and all it may
    have done before is construct the credential: the transcript has no
    message of the directory check and no request.  When the command line
    parses and the credential is constructed, the exception is [KeyError] of
    the first variable, in the order [main] reads them, that is unset.  A
    lookup has no default: [os.environ[key]] of an unset key raises
    [KeyError key] in every state. *)
Theorem unset_variable_aborts key s :
  key ∈ required_variables →
  environ host !! key = None →
  let r := main sdk host s in
  (∃ e, returned r = Raised e) ∧
  (transcript r = [] ∨ ∃ o, transcript r = [Invoke new_DefaultAzureCredential o]) ∧
  (∀ args s',
     parse_args host = Returned args →
     handle sdk new_DefaultAzureCredential s = (Returned tt, s') →
     ∃ key', first_unset (environ host) = Some key' ∧
             environ host !! key' = None ∧
             r = Run (Raised (KeyError key')) s'
                   [Invoke new_DefaultAzureCredential (Returned VNone)]) ∧
  (∀ s0 : S, os_environ host key s0 = Run (Raised (KeyError key)) s0 []).
Proof.
  intros Hkey Hnone r.
  destruct (first_unset_Some key Hkey Hnone) as (key' & Hfirst & Hnone').
  assert (∀ s0 : S, os_environ host key s0 = Run (Raised (KeyError key)) s0 []) as Hlookup
    by (intros s0; unfold os_environ, subscript; by rewrite Hnone).
  subst r. remember (main sdk host s) as r eqn:Hr.
  unfold main, setup, connect, os_environ in Hr.
  set (P := λ _ : event, True).
  pose proof Hfirst as Hfind.
  unfold first_unset in Hfind. cbn [List.find required_variables] in Hfind.
  step P Hr; [step P Hr; [step P Hr; [step P Hr; [step P Hr|]|]|]|].
  all: subst r; cbn [returned transcript].
  all: repeat case_bool_decide; simplify_eq.
  all: (split; [by eexists|]); (split; [eauto|]); (split; [|done]).
  all: intros args s' ? ?; simplify_eq; eauto.
Qed.

Lemma creation_follows_listing s :
  let t := transcript (main sdk host s) in
  (∀ c o, Invoke (compute_begin_create_or_update c) o ∈ t →
     c = compute_cluster ∧
     ∃ l, Invoke compute_list (Returned (VComputes l)) ∈ t ∧
          "cpu-cluster" ∉ compute_name <$> l) ∧
  (∀ l, Invoke compute_list (Returned (VComputes l)) ∈ t →
     "cpu-cluster" ∈ compute_name <$> l →
     select creation_request t = []) ∧
  (List.length (select creation_request t) ≤ 1)%nat.
Proof.
  intros t. subst t.
  set (P := λ ev, creation_request ev = None ∧ listing ev = None).
  assert (∀ t, Forall P t → select creation_request t = []) as Hnone1
    by (intros t Ht; apply select_nil; eapply Forall_impl; [exact Ht|]; by intros ? []).
  assert (∀ t, Forall P t → select listing t = []) as Hnone2
    by (intros t Ht; apply select_nil; eapply Forall_impl; [exact Ht|]; by intros ? []).
  remember (main sdk host s) as r eqn:Hr. unfold main, setup in Hr.
  repeat (step P Hr).
  all: subst r; cbn [transcript].
  all: split; [|split].
  all: try (select_goal Hnone1; cbn [creation_request List.length]; lia).
  all: try (intros c o Hin;
            apply (elem_of_select creation_request _ _ c) in Hin; [|done];
            select_in Hin Hnone1;
            first
              [ by apply elem_of_nil in Hin
              | apply list_elem_of_singleton in Hin as ->;
                split; [done|]; eexists; split;
                [ do 2 (apply elem_of_app; right);
                  apply list_elem_of_further, list_elem_of_here
                | by apply (bool_decide_eq_true_1 _ Heqb) ] ]).
  all: intros l Hin Hl;
       apply (elem_of_select listing _ _ l) in Hin; [|done];
       select_in Hin Hnone2;
       first [ by apply elem_of_nil in Hin
             | apply list_elem_of_singleton in Hin as -> ];
       select_goal Hnone1;
       first [ done | by apply bool_decide_eq_true in Heqb ].
Qed.

(** *** Declaration *)

Lemma create_pipeline_run latest_envs s e1 e2 e3 :
  latest_envs !! "pytorch-onnx-env" = Some e1 →
  latest_envs !! "onnx2c-env" = Some e2 →
  latest_envs !! "gcc-env" = Some e3 →
  create_pipeline latest_envs s =
    Run (Returned (nn_pipeline (train_pytorch_model e1) (convert_onnx_to_c e2)
                     (compile_and_test e3) (build_minimal_binary e3)))
        s [Print "Creating pipeline components..."].
Proof.
  intros H1 H2 H3. remember (create_pipeline latest_envs s) as r eqn:Hr.
  unfold create_pipeline in Hr. simpl_run Hr.
  rewrite H1 in Hr. simpl_run Hr. rewrite H2 in Hr. simpl_run Hr.
  rewrite H3 in Hr. simpl_run Hr. rewrite H3 in Hr. by simpl_run Hr.
Qed.

Lemma main_transcript s :
  transcript (main sdk host s) =
    transcript (setup sdk host s) ++
    match returned (setup sdk host s) with
    | Returned (args, pipeline) =>
        transcript (submit sdk args pipeline (final (setup sdk host s)))
    | Raised _ => []
    end.
Proof. unfold main. rewrite bind_transcript. by destruct (returned _) as [[]|]. Qed.

Lemma setup_registrations s args pipeline :
  returned (setup sdk host s) = Returned (args, pipeline) →
  ∃ r1 r2 r3 : Environment,
    select registration (transcript (setup sdk host s)) =
      [ ({| env_name := "pytorch-onnx-env";
            env_description := "Environment for PyTorch training and ONNX export";
            build := {| path := "environments/pytorch" |};
            version := None |}, Returned (VEnvironment r1));
        ({| env_name := "onnx2c-env";
            env_description := "Environment for ONNX to C conversion";
            build := {| path := "environments/onnx2c" |};
            version := None |}, Returned (VEnvironment r2));
        ({| env_name := "gcc-env";
            env_description := "Environment for C compilation and testing";
            build := {| path := "environments/gcc" |};
            version := None |}, Returned (VEnvironment r3)) ] ∧
    pipeline =
      nn_pipeline
        (train_pytorch_model ("pytorch-onnx-env" +:+ ":" +:+ py_str (version r1)))
        (convert_onnx_to_c ("onnx2c-env" +:+ ":" +:+ py_str (version r2)))
        (compile_and_test ("gcc-env" +:+ ":" +:+ py_str (version r3)))
        (build_minimal_binary ("gcc-env" +:+ ":" +:+ py_str (version r3))).
Proof.
  intros Hs.
  set (P := λ ev, registration ev = None).
  assert (∀ t, Forall P t → select registration t = []) as Hnone
    by (intros t Ht; by apply select_nil).
  remember (setup sdk host s) as r eqn:Hr. unfold setup in Hr.
  repeat (step P Hr).
  all: subst r; cbn [returned transcript] in *; try discriminate Hs.
  injection Hs as <- <-. exists a1, a2, a3. split; [by select_goal Hnone|].
  erewrite create_pipeline_run in Erun3.
  - by injection Erun3 as <- _ _.
  - do 2 (rewrite lookup_insert_ne by done). apply lookup_insert_eq.
  - rewrite lookup_insert_ne by done. apply lookup_insert_eq.
  - apply lookup_insert_eq.
Qed.

(** C8: in a run whose setup completes, exactly three environments are
    registered, in the order pytorch-onnx-env, onnx2c-env, gcc-env, each
    from its build-context directory and with no version of its own; and the
    environment of every pipeline step is the name of its environment, a
    colon and the version that registration returned: pytorch-onnx-env for
    the training step, onnx2c-env for the conversion step, gcc-env for the
    compile/test step and for the minimal-binary step. *)
Theorem environments_registered_and_referenced s args pipeline :
  returned (setup sdk host s) = Returned (args, pipeline) →
  ∃ r1 r2 r3 : Environment,
    select registration (transcript (main sdk host s)) =
      [ ({| env_name := "pytorch-onnx-env";
            env_description := "Environment for PyTorch training and ONNX export";
            build := {| path := "environments/pytorch" |};
            version := None |}, Returned (VEnvironment r1));
        ({| env_name := "onnx2c-env";
            env_description := "Environment for ONNX to C conversion";
            build := {| path := "environments/onnx2c" |};
            version := None |}, Returned (VEnvironment r2));
        ({| env_name := "gcc-env";
            env_description := "Environment for C compilation and testing";
            build := {| path := "environments/gcc" |};
            version := None |}, Returned (VEnvironment r3)) ] ∧
    (λ st, (name (component st), environment (component st))) <$> jobs pipeline =
      [ ("pytorch_train", "pytorch-onnx-env:" +:+ py_str (version r1));
        ("onnx2c", "onnx2c-env:" +:+ py_str (version r2));
        ("compile_and_test", "gcc-env:" +:+ py_str (version r3));
        ("build_minimal", "gcc-env:" +:+ py_str (version r3)) ].
Proof.
  intros Hs. destruct (setup_registrations s args pipeline Hs) as (r1 & r2 & r3 & Ht & ->).
  exists r1, r2, r3. split; [|done].
  rewrite main_transcript, select_app, Ht, Hs.
  rewrite (select_nil registration (transcript (submit _ _ _ _))); [done|].
  by apply emits_submit.
Qed.

End Provisioning.

Section MonadMore.
Context {S : Type}.
Implicit Types s : S.

Lemma propagates_for_fold {A B} (body : B → A → M S B) acc (l : list A) :
  (∀ b x, propagates (body b x)) → propagates (for_fold body acc l).
Proof.
  intros H. revert acc. induction l as [|x l IH]; intros acc; simpl.
  - apply propagates_silent, emits_ret.
  - apply propagates_bind; [apply H|done].
Qed.

Lemma propagates_try_role (sdk : SDK S) scope n p (f : RoleAssignment → string) line :
  propagates
    (try_except_ResourceExistsError
       (role_assignment ← invoke sdk (role_assignments_create scope n p);
        print (f role_assignment))
       (λ _, print line)).
Proof.
  intros s c e.
  remember (try_except_ResourceExistsError _ _ s) as r eqn:Hr.
  unfold try_except_ResourceExistsError in Hr.
  destruct (handle sdk (role_assignments_create scope n p) s) as [[ra|e0] s'] eqn:E;
    [apply invoke_Returned in E|apply invoke_Raised in E];
    rewrite (bind_Returned _ _ _ _ _ E) in Hr || rewrite (bind_Raised _ _ _ _ _ E) in Hr;
    cbn in Hr.
  - subst r. cbn. intros Hin. split_elem_of Hin.
  - destruct e0; subst r; cbn; intros Hin; split_elem_of Hin; simplify_eq;
      by (left + right).
Qed.

Lemma bind_map_result {A B C} (m : M S A) (k : A → M S B) (k' : A → M S C)
    (f : C → B) s :
  (∀ x s', k x s' = map_result f (k' x s')) →
  (x ← m; k x) s = map_result f ((x ← m; k' x) s).
Proof.
  intros H. unfold mbind, M_bind, bind, map_result.
  destruct (m s) as [[a|e] s1 t1]; cbn [returned final transcript]; [|done].
  rewrite H. done.
Qed.

End MonadMore.

Ltac propagates_step :=
  first
    [ apply propagates_bind; [|intros ?]
    | lazymatch goal with
      | |- propagates (invoke ?sdk ?c) => apply (propagates_invoke sdk c)
      end
    | apply propagates_try_role
    | apply propagates_for_fold; intros ? ?
    | progress cbv beta zeta
    | lazymatch goal with
      | |- propagates (let '(_, _) := ?x in _) => destruct x
      | |- propagates (if ?b then _ else _) => destruct b
      | |- propagates (match ?o with Some _ => _ | None => _ end) => destruct o
      | |- propagates (match ?l with [] => _ | _ :: _ => _ end) => destruct l
      end
    | solve [apply propagates_silent; solve_emits] ].

Section Submission.
Context {S : Type} (sdk : SDK S) (host : Host).
Implicit Types s : S.

Lemma propagates_main : propagates (main sdk host).
Proof.
  unfold main, setup, connect, check_directories, create_compute, assign_role,
    create_environments, register_environment, create_pipeline, submit, os_environ.
  repeat propagates_step.
Qed.

(** C6: an exception raised by an SDK call is [ResourceExistsError] out of
    [role_assignments.create], or it ends the run: the call that raised is
    the last event of the transcript, so nothing is retried or done after
    it, and [main] raises that same exception. *)
Theorem only_resource_exists_is_handled s c e :
  Invoke c (Raised e) ∈ transcript (main sdk host s) →
  (∃ scope n p msg, c = role_assignments_create scope n p ∧ e = ResourceExistsError msg) ∨
  (last (transcript (main sdk host s)) = Some (Invoke c (Raised e)) ∧
   returned (main sdk host s) = Raised e).
Proof.
  intros Hin. destruct (propagates_main s c e Hin) as [H|H]; [left|by right].
  destruct c, e; try done. by eexists _, _, _, _.
Qed.

(** *** Submission *)

Lemma submit_run args pipeline s :
  submit sdk args pipeline s =
    if run args
    then
      match handle sdk (jobs_create_or_update pipeline) s with
      | (Returned j, s') =>
          Run (Returned tt) s'
            [Invoke (jobs_create_or_update pipeline) (Returned (VJob j));
             Print ("Pipeline job submitted with ID: " +:+ py_str (job_name j))]
      | (Raised e, s') =>
          Run (Raised e) s' [Invoke (jobs_create_or_update pipeline) (Raised e)]
      end
    else
      Run (Returned tt) s
        [Print (String "010"%char "Setup complete! Pipeline is ready to be submitted.");
         Print "Run the pipeline with the --run flag to execute it."].
Proof.
  remember (submit sdk args pipeline s) as r eqn:Hr. unfold submit in Hr.
  destruct (run args); [|by simpl_run Hr].
  call sdk (jobs_create_or_update pipeline) s in Hr as [[j|e] s']; by subst r.
Qed.

Lemma main_of_setup s args pipeline :
  returned (setup sdk host s) = Returned (args, pipeline) →
  main sdk host s =
    let r := submit sdk args pipeline (final (setup sdk host s)) in
    Run (returned r) (final r) (transcript (setup sdk host s) ++ transcript r).
Proof.
  intros Hs. unfold main. destruct (setup sdk host s) as [o s' t] eqn:E.
  cbn in Hs. subst o. by rewrite (bind_Returned _ _ _ _ _ E).
Qed.

Lemma main_setup_raised s e :
  returned (setup sdk host s) = Raised e →
  main sdk host s = Run (Raised e) (final (setup sdk host s)) (transcript (setup sdk host s)).
Proof.
  intros Hs. unfold main. destruct (setup sdk host s) as [o s' t] eqn:E.
  cbn in Hs. subst o. by rewrite (bind_Raised _ _ _ _ _ E).
Qed.

Lemma emits_setup P :
  (∀ l, P (Print l)) →
  (∀ c r, submission (Invoke c r) = None → P (Invoke c r)) →
  emits P (setup sdk host).
Proof.
  intros H1 H2. unfold setup.
  repeat first [ solve [phase_emits; by apply H2]
               | apply emits_bind; [|intros ?]
               | apply emits_mret ].
Qed.

Lemma setup_returned_args s args pipeline :
  returned (setup sdk host s) = Returned (args, pipeline) →
  parse_args host = Returned args.
Proof.
  intros Hs. set (P := λ _ : event, True).
  remember (setup sdk host s) as r eqn:Hr. unfold setup, connect, os_environ in Hr.
  repeat (step P Hr).
  all: subst r; cbn [returned] in Hs; try discriminate Hs.
  by injection Hs as <- _.
Qed.

Lemma setup_ignores_args a a' s :
  setup sdk (with_args host (Returned a)) s =
  map_result (λ x, (a, x.2)) (setup sdk (with_args host (Returned a')) s).
Proof.
  unfold setup, connect. rewrite !bind_assoc.
  cbn [with_args parse_args]. rewrite !bind_lift.
  repeat (rewrite ?bind_assoc; apply bind_map_result; intros ? ?).
  rewrite !bind_mret_l.
  repeat (rewrite ?bind_assoc; apply bind_map_result; intros ? ?).
  done.
Qed.

(** C3: [jobs.create_or_update] is called only when the command line
    parsed with [--run], and then on the pipeline [setup] declared.  When
    setup completes: with the flag the submission is the next event after
    setup, followed by the line with the job's name if it returned; without
    the flag [main] returns after the two completion lines and leaves the
    platform as setup left it.  Setup itself does not depend on the flag: it
    makes the same calls and ends in the same state whatever the parsed
    arguments are. *)
Theorem submission_iff_run_flag s :
  let r := main sdk host s in
  (∀ p o, Invoke (jobs_create_or_update p) o ∈ transcript r →
     ∃ args, parse_args host = Returned args ∧ run args = true ∧
             returned (setup sdk host s) = Returned (args, p)) ∧
  (∀ args p, returned (setup sdk host s) = Returned (args, p) →
     parse_args host = Returned args ∧
     if run args
     then ∃ o, transcript r =
                 transcript (setup sdk host s) ++
                 Invoke (jobs_create_or_update p) o ::
                 match o with
                 | Returned (VJob j) =>
                     [Print ("Pipeline job submitted with ID: " +:+ py_str (job_name j))]
                 | _ => []
                 end
     else r = Run (Returned tt) (final (setup sdk host s))
                (transcript (setup sdk host s) ++
                 [Print (String "010"%char "Setup complete! Pipeline is ready to be submitted.");
                  Print "Run the pipeline with the --run flag to execute it."])) ∧
  (∀ a a',
     setup sdk (with_args host (Returned a)) s =
     map_result (λ x, (a, x.2)) (setup sdk (with_args host (Returned a')) s)).
Proof.
  intros r. subst r.
  assert (Forall (λ ev, submission ev = None) (transcript (setup sdk host s))) as Hnone
    by by apply emits_setup.
  split; [|split].
  - intros p o Hin.
    apply (elem_of_select submission _ _ p) in Hin; [|done].
    destruct (returned (setup sdk host s)) as [[args p']|e] eqn:Hs.
    + rewrite (main_of_setup _ _ _ Hs) in Hin. cbn [transcript] in Hin.
      rewrite select_app, (select_nil _ _ Hnone), submit_run in Hin.
      pose proof (setup_returned_args _ _ _ Hs) as Hargs.
      destruct (run args) eqn:Hrun; [|by apply elem_of_nil in Hin].
      destruct (handle sdk _ _) as [[j|e] s']; cbn in Hin;
        apply list_elem_of_singleton in Hin as ->; eauto.
    + rewrite (main_setup_raised _ _ Hs) in Hin. cbn [transcript] in Hin.
      rewrite (select_nil _ _ Hnone) in Hin. by apply elem_of_nil in Hin.
  - intros args p Hs. split; [by eapply setup_returned_args|].
    rewrite (main_of_setup _ _ _ Hs), submit_run.
    destruct (run args); [|done].
    destruct (handle sdk _ _) as [[j|e] s']; cbn.
    + by exists (Returned (VJob j)).
    + by exists (Raised e).
  - intros a a'. apply setup_ignores_args.
Qed.

End Submission.

Section TryExcept.
Context {S : Type} (sdk : SDK S).
Implicit Types s : S.

Lemma bind_try_role_Returned c s a s' :
  handle sdk c s = (Returned a, s') →
  ∀ (f : response c → string) line B (k : unit → M S B),
    (y ← try_except_ResourceExistsError (x ← invoke sdk c; print (f x)) (λ _, print line);
     k y) s =
    Run (returned (k tt s')) (final (k tt s'))
        (Invoke c (Returned (to_value c a)) :: Print (f a) :: transcript (k tt s')).
Proof.
  intros E f line B k. apply invoke_Returned in E.
  unfold mbind at 1. unfold M_bind, bind at 1, try_except_ResourceExistsError.
  by rewrite (bind_Returned _ _ _ _ _ E).
Qed.

Lemma bind_try_role_caught c s msg s' :
  handle sdk c s = (Raised (ResourceExistsError msg), s') →
  ∀ (f : response c → string) line B (k : unit → M S B),
    (y ← try_except_ResourceExistsError (x ← invoke sdk c; print (f x)) (λ _, print line);
     k y) s =
    Run (returned (k tt s')) (final (k tt s'))
        (Invoke c (Raised (ResourceExistsError msg)) :: Print line :: transcript (k tt s')).
Proof.
  intros E f line B k. apply invoke_Raised in E.
  unfold mbind at 1. unfold M_bind, bind at 1, try_except_ResourceExistsError.
  by rewrite (bind_Raised _ _ _ _ _ E).
Qed.

Lemma bind_try_role_Raised c s e s' :
  handle sdk c s = (Raised e, s') →
  (∀ msg, e ≠ ResourceExistsError msg) →
  ∀ (f : response c → string) line B (k : unit → M S B),
    (y ← try_except_ResourceExistsError (x ← invoke sdk c; print (f x)) (λ _, print line);
     k y) s =
    Run (Raised e) s' [Invoke c (Raised e)].
Proof.
  intros E He f line B k. apply invoke_Raised in E.
  unfold mbind at 1. unfold M_bind, bind at 1, try_except_ResourceExistsError.
  rewrite (bind_Raised _ _ _ _ _ E). cbn.
  destruct e; try done. by destruct (He msg).
Qed.

End TryExcept.

(** Runs the [try] statement of lines 95-104 at the head of the chain in [H]. *)
Ltac step_try H :=
  simpl_run H;
  lazymatch type of H with
  | context [@mbind ?M ?I ?A ?B ?k
               (try_except_ResourceExistsError
                  (@mbind ?M' ?I' ?A' ?B' (fun x => print (@?f x)) (invoke ?sdk ?c))
                  (fun _ => print ?line)) ?s] =>
      let X := constr:(@mbind M I A B k
                         (try_except_ResourceExistsError
                            (@mbind M' I' A' B' (fun x => print (f x)) (invoke sdk c))
                            (fun _ => print line)) s) in
      let E := fresh "Etry" in
      destruct (handle sdk c s) as [[?a|?e] ?s] eqn:E;
      [ rewrite_head H X (bind_try_role_Returned sdk c s _ _ E f line B k)
      | lazymatch type of E with
        | _ = (Raised ?e, _) =>
            destruct e;
            first [ rewrite_head H X (bind_try_role_caught sdk c s _ _ E f line B k)
                  | rewrite_head H X
                      (bind_try_role_Raised sdk c s _ _ E ltac:(done) f line B k) ]
        end ]
  end;
  simpl_run H.

Lemma app_prefix3 {A} (a b c : list A) e1 e2 e3 l :
  a ++ b ++ c ++ e1 :: e2 :: e3 :: l = (a ++ b ++ c ++ [e1; e2; e3]) ++ l.
Proof. by rewrite <-!app_assoc. Qed.

Section RoleAssignment.
Context {S : Type} (sdk : SDK S) (host : Host).
Implicit Types s : S.

Lemma setup_tolerates_duplicate s scope n p o :
  (scope, n, p, o) ∈ select role_request (transcript (setup sdk host s)) →
  (∃ ra, o = Returned (VRoleAssignment ra)) ∨ (∃ msg, o = Raised (ResourceExistsError msg)) →
  (∃ pre line o' rest,
     transcript (setup sdk host s) =
       pre ++
       Invoke (role_assignments_create scope n p) o
       :: Print line
       :: Print "Creating environments..."
       :: Invoke (environments_create_or_update
                    {| env_name := "pytorch-onnx-env";
                       env_description := "Environment for PyTorch training and ONNX export";
                       build := {| path := "environments/pytorch" |};
                       version := None |}) o'
       :: rest ∧
     line = match o with
            | Returned (VRoleAssignment ra) =>
                "Role assignment created: " +:+ py_str (assignment_id ra)
            | _ => "Role assignment already exists. Skipping creation."
            end) ∧
  (Forall (λ x, ∃ v, x.2 = Returned v) (select registration (transcript (setup sdk host s))) →
   ∃ args pipeline, returned (setup sdk host s) = Returned (args, pipeline)).
Proof.
  intros Hin Ho.
  set (P := λ ev, role_request ev = None ∧ registration ev = None).
  assert (∀ t, Forall P t → select role_request t = []) as Hnone1
    by (intros t Ht; apply select_nil; eapply Forall_impl; [exact Ht|]; by intros ? []).
  assert (∀ t, Forall P t → select registration t = []) as Hnone2
    by (intros t Ht; apply select_nil; eapply Forall_impl; [exact Ht|]; by intros ? []).
  remember (setup sdk host s) as r eqn:Hr. unfold setup in Hr.
  repeat first [step P Hr | step_try Hr].
  all: subst r; cbn [returned transcript to_value] in *.
  all: select_in Hin Hnone1.
  all: try by apply elem_of_nil in Hin.
  all: apply list_elem_of_singleton in Hin; injection Hin as -> -> -> ->.
  all: destruct Ho as [[ra Ho]|[msg' Ho]]; try discriminate Ho.
  all: (split; [eexists _, _, _, _; split; [apply app_prefix3|done]|]).
  all: intros Hall; select_in Hall Hnone2.
  all: repeat (apply Forall_cons in Hall as [[? ?Hv] Hall]); cbn [snd] in *;
       try match goal with
           | Hv : Raised _ = Returned _ |- _ => discriminate Hv
           end.
  all: try by eauto.
  all: match goal with
       | E : create_pipeline _ _ = Run (Raised _) _ _ |- _ =>
           erewrite create_pipeline_run in E;
           [ discriminate E
           | do 2 (rewrite lookup_insert_ne by done); apply lookup_insert_eq
           | rewrite lookup_insert_ne by done; apply lookup_insert_eq
           | apply lookup_insert_eq ]
       end.
Qed.

(** C5: in a run in which [role_assignments.create] returned or raised
    [ResourceExistsError], the next events are one message (the id of the
    new assignment, or the notice that it already exists), the
    [Creating environments...] line and the registration of the first
    environment: the run goes on in both cases alike.  If the three
    registrations return, setup completes with the declared pipeline. *)
Theorem duplicate_role_assignment_tolerated s scope n p o :
  Invoke (role_assignments_create scope n p) o ∈ transcript (main sdk host s) →
  (∃ ra, o = Returned (VRoleAssignment ra)) ∨ (∃ msg, o = Raised (ResourceExistsError msg)) →
  (∃ pre line o' rest,
     transcript (main sdk host s) =
       pre ++
       Invoke (role_assignments_create scope n p) o
       :: Print line
       :: Print "Creating environments..."
       :: Invoke (environments_create_or_update
                    {| env_name := "pytorch-onnx-env";
                       env_description := "Environment for PyTorch training and ONNX export";
                       build := {| path := "environments/pytorch" |};
                       version := None |}) o'
       :: rest ∧
     line = match o with
            | Returned (VRoleAssignment ra) =>
                "Role assignment created: " +:+ py_str (assignment_id ra)
            | _ => "Role assignment already exists. Skipping creation."
            end) ∧
  (Forall (λ x, ∃ v, x.2 = Returned v) (select registration (transcript (main sdk host s))) →
   ∃ args pipeline, returned (setup sdk host s) = Returned (args, pipeline)).
Proof.
  intros Hin Ho.
  assert (Forall (λ ev, role_request ev = None ∧ registration ev = None)
            (match returned (setup sdk host s) with
             | Returned (args, pipeline) =>
                 transcript (submit sdk args pipeline (final (setup sdk host s)))
             | Raised _ => []
             end)) as Hsub.
  { destruct (returned (setup sdk host s)) as [[args pipeline]|e]; [|constructor].
    by apply emits_submit. }
  apply (elem_of_select role_request _ _ (scope, n, p, o)) in Hin; [|done].
  rewrite main_transcript in Hin |- *.
  match type of Hsub with Forall _ ?x => set (sub := x) in * end.
  assert (select role_request sub = []) as Hsub1
    by (apply select_nil; eapply Forall_impl; [exact Hsub|]; by intros ? []).
  assert (select registration sub = []) as Hsub2
    by (apply select_nil; eapply Forall_impl; [exact Hsub|]; by intros ? []).
  rewrite select_app, Hsub1, app_nil_r in Hin.
  rewrite select_app, Hsub2, app_nil_r.
  destruct (setup_tolerates_duplicate s scope n p o Hin Ho)
    as [(pre & line & o' & rest & Ht & Hline) Hdone].
  split; [|done].
  exists pre, line, o', (rest ++ sub).
  split; [|done]. rewrite Ht, <-app_assoc. done.
Qed.

End RoleAssignment.

Section Preserves.
Context {S : Type} (sdk : SDK S) (I : S → Prop).
Hypothesis stable : ∀ c s, I s → I (handle sdk c s).2.
Implicit Types s : S.

Lemma preserves_ret {A} (a : A) : preserves I (ret a : M S A).
Proof. by intros s. Qed.

Lemma preserves_mret {A} (a : A) : preserves I (mret a : M S A).
Proof. by intros s. Qed.

Lemma preserves_raise {A} e : preserves I (raise e : M S A).
Proof. by intros s. Qed.

Lemma preserves_lift {A} (o : outcome A) : preserves I (lift o : M S A).
Proof. by intros s. Qed.

Lemma preserves_print line : preserves I (print line : M S unit).
Proof. by intros s. Qed.

Lemma preserves_subscript d key : preserves I (subscript d key : M S string).
Proof. intros s. unfold subscript. by destruct (d !! key). Qed.

Lemma preserves_invoke c : preserves I (invoke sdk c).
Proof.
  intros s Hs. specialize (stable c s Hs). unfold invoke.
  by destruct (handle sdk c s).
Qed.

Lemma preserves_bind {A B} (m : M S A) (k : A → M S B) :
  preserves I m → (∀ a, preserves I (k a)) → preserves I (x ← m; k x).
Proof.
  intros Hm Hk s Hs. rewrite bind_final. specialize (Hm s Hs).
  destruct (returned (m s)); [by apply Hk|done].
Qed.

Lemma preserves_for_each {A} (l : list A) (body : A → M S unit) :
  (∀ x, preserves I (body x)) → preserves I (for_each l body).
Proof.
  intros H. induction l as [|x l IH]; simpl; [apply preserves_ret|].
  apply preserves_bind; [apply H|done].
Qed.

Lemma preserves_for_fold {A B} (body : B → A → M S B) acc (l : list A) :
  (∀ b x, preserves I (body b x)) → preserves I (for_fold body acc l).
Proof.
  intros H. revert acc. induction l as [|x l IH]; intros acc; simpl; [apply preserves_ret|].
  apply preserves_bind; [apply H|done].
Qed.

Lemma preserves_try_except {A} (body : M S A) (handler : string → M S A) :
  preserves I body → (∀ msg, preserves I (handler msg)) →
  preserves I (try_except_ResourceExistsError body handler).
Proof.
  intros Hb Hh s Hs. unfold try_except_ResourceExistsError. specialize (Hb s Hs).
  destruct (returned (body s)) as [a|[]]; try done. by apply Hh.
Qed.

End Preserves.

Ltac preserves_step :=
  first
    [ apply preserves_bind; [|intros ?]
    | lazymatch goal with
      | |- preserves ?I (invoke ?sdk ?c) =>
          apply (preserves_invoke sdk I ltac:(assumption) c)
      end
    | apply preserves_mret
    | apply preserves_ret
    | apply preserves_raise
    | apply preserves_lift
    | apply preserves_print
    | apply preserves_subscript
    | apply preserves_for_each; intros ?
    | apply preserves_for_fold; intros ? ?
    | apply preserves_try_except; [|intros ?]
    | progress cbv beta zeta
    | lazymatch goal with
      | |- preserves _ (let '(_, _) := ?x in _) => destruct x
      | |- preserves _ (if ?b then _ else _) => destruct b
      | |- preserves _ (match ?o with Some _ => _ | None => _ end) => destruct o
      | |- preserves _ (match ?l with [] => _ | _ :: _ => _ end) => destruct l
      end ].

Lemma invoke_Returned_inv {S} (sdk : SDK S) c s a s' t :
  invoke sdk c s = Run (Returned a) s' t → handle sdk c s = (Returned a, s').
Proof.
  unfold invoke. destruct (handle sdk c s) as [r s'']. by intros [= -> -> _].
Qed.

Lemma select_created_le t :
  (List.length (select created_compute t) ≤ List.length (select creation_request t))%nat.
Proof.
  induction t as [|ev t IH]; [done|].
  destruct ev as [line|c o]; [done|].
  destruct c; try done. destruct o as [[]|]; simpl; lia.
Qed.

(** Keeps track of the invariant [I] along the states of a stepped run;
    [prove_preserves] shows that a phase or call preserves it. *)
Ltac track I prove_preserves :=
  repeat match goal with
         | E : ?m ?s = Run _ ?s' _, HI : I ?s |- _ =>
             lazymatch goal with
             | _ : I s' |- _ => fail
             | _ => idtac
             end;
             let H := fresh "HI" in
             assert (I s') as H
               by (let Hp := fresh "Hp" in
                   assert (preserves I m) as Hp by prove_preserves;
                   specialize (Hp s HI); rewrite E in Hp; exact Hp)
         end.

Section TwoRuns.
Context {S : Type} (sdk : SDK S).
Context (cluster_exists : S → Prop).
Hypothesis listing_accurate :
  ∀ s l s', handle sdk compute_list s = (Returned l, s') →
    cluster_exists s → "cpu-cluster" ∈ compute_name <$> l.
Hypothesis creation_takes_effect :
  ∀ s c s', handle sdk (compute_begin_create_or_update compute_cluster) s = (Returned c, s') →
    cluster_exists s'.
Hypothesis never_deleted : ∀ c s, cluster_exists s → cluster_exists (handle sdk c s).2.
Implicit Types s : S.

Ltac phase_preserves :=
  unfold connect, check_directories, create_compute, assign_role,
    create_environments, register_environment, create_pipeline, submit, os_environ;
  repeat preserves_step.

Lemma no_creation_when_cluster_exists host s :
  cluster_exists s → select creation_request (transcript (main sdk host s)) = [].
Proof.
  intros HI.
  set (P := λ ev, creation_request ev = None).
  assert (∀ t, Forall P t → select creation_request t = []) as Hnone
    by (intros t Ht; by apply select_nil).
  remember (main sdk host s) as r eqn:Hr. unfold main, setup in Hr.
  repeat (step P Hr).
  all: subst r; cbn [transcript]; select_goal Hnone; try done.
  all: exfalso; track cluster_exists phase_preserves.
  all: match goal with
       | E : invoke sdk compute_list ?s1 = Run (Returned ?l) _ _,
         HI : cluster_exists ?s1, Hb : bool_decide _ = true |- _ =>
           apply invoke_Returned_inv in E; apply bool_decide_eq_true_1 in Hb;
           exact (Hb (listing_accurate _ _ _ E HI))
       end.
Qed.

Lemma cluster_exists_after_creation host s :
  select created_compute (transcript (main sdk host s)) ≠ [] →
  cluster_exists (final (main sdk host s)).
Proof.
  intros Hne.
  set (P := λ ev, creation_request ev = None).
  assert (∀ t, Forall P t → select created_compute t = []) as Hnone.
  { intros t Ht. apply select_nil. eapply Forall_impl; [exact Ht|].
    intros [line|c o]; [done|]. by destruct c. }
  remember (main sdk host s) as r eqn:Hr. unfold main, setup in Hr.
  repeat (step P Hr).
  all: subst r; cbn [final transcript] in *; select_in Hne Hnone; try done.
  all: match goal with
       | E : invoke sdk (compute_begin_create_or_update compute_cluster) _ =
               Run (Returned _) _ _ |- _ =>
           pose proof (creation_takes_effect _ _ _ (invoke_Returned_inv _ _ _ _ _ _ E))
       end.
  all: track cluster_exists phase_preserves; assumption.
Qed.

Lemma two_runs_create_once host1 host2 s :
  let r1 := main sdk host1 s in
  let r2 := main sdk host2 (final r1) in
  (List.length (select created_compute (transcript r1 ++ transcript r2)) ≤ 1)%nat.
Proof.
  intros r1 r2. rewrite select_app, length_app.
  pose proof (select_created_le (transcript r1)) as H1.
  pose proof (select_created_le (transcript r2)) as H2.
  destruct (creation_follows_listing sdk host1 s) as (_ & _ & Hle1).
  destruct (creation_follows_listing sdk host2 (final r1)) as (_ & _ & Hle2).
  fold r1 in Hle1. fold r2 in Hle2.
  destruct (select created_compute (transcript r1)) as [|c l] eqn:E1; [simpl; lia|].
  assert (cluster_exists (final r1)) as HI
    by (apply cluster_exists_after_creation; subst r1; by rewrite E1).
  apply (no_creation_when_cluster_exists host2) in HI. fold r2 in HI.
  rewrite HI in H2. simpl in *. lia.
Qed.

End TwoRuns.

Section Compute.
Context {S : Type} (sdk : SDK S) (host : Host).

(** C4: a creation request is for [compute_cluster] and is made only after
    a listing that has no compute named [cpu-cluster]; a listing that has
    one is followed by no creation request; a run makes at most one.  On a
    platform whose listing shows an existing cluster, on which a successful
    creation makes the cluster exist and no call removes it: a run that
    starts with the cluster in place sends no creation request, and two runs
    in a row create at most one cluster between them. *)
Theorem cluster_created_once (s : S) :
  let t := transcript (main sdk host s) in
  (∀ c o, Invoke (compute_begin_create_or_update c) o ∈ t →
     c = compute_cluster ∧
     ∃ l, Invoke compute_list (Returned (VComputes l)) ∈ t ∧
          "cpu-cluster" ∉ compute_name <$> l) ∧
  (∀ l, Invoke compute_list (Returned (VComputes l)) ∈ t →
     "cpu-cluster" ∈ compute_name <$> l →
     select creation_request t = []) ∧
  (List.length (select creation_request t) ≤ 1)%nat ∧
  (∀ cluster_exists : S → Prop,
     (∀ s0 l s', handle sdk compute_list s0 = (Returned l, s') →
        cluster_exists s0 → "cpu-cluster" ∈ compute_name <$> l) →
     (∀ s0 c s', handle sdk (compute_begin_create_or_update compute_cluster) s0
                   = (Returned c, s') →
        cluster_exists s') →
     (∀ c s0, cluster_exists s0 → cluster_exists (handle sdk c s0).2) →
     (cluster_exists s → select creation_request t = []) ∧
     ∀ host',
       (List.length
          (select created_compute
             (t ++ transcript (main sdk host' (final (main sdk host s))))) ≤ 1)%nat).
Proof.
  intros t. subst t.
  destruct (creation_follows_listing sdk host s) as (H1 & H2 & H3).
  split; [done|]. split; [done|]. split; [done|].
  intros cluster_exists Hlist Hcreate Hstable. split.
  - by apply no_creation_when_cluster_exists.
  - intros host'. by apply (two_runs_create_once sdk cluster_exists).
Qed.

End Compute.

Section Graph.
Context {S : Type} (sdk : SDK S) (host : Host).

(** C1: whatever environments the four components are built with, the
    graph [nn_pipeline] declares has four nodes and exactly four edges: the
    training node's [output_dir] feeds [model_dir] of the conversion node and
    [model_dir] of the compile/test node, and the conversion node's
    [output_dir] feeds [c_code_dir] of the compile/test node and of the
    minimal-binary node.  Each edge joins ports its two components declare
    and goes from a node to one declared later, so there is no cycle.  The
    pipeline a completed [setup] returns has these connections. *)
Theorem nn_pipeline_graph :
  (∀ e1 e2 e3 e4 : string,
     let p := nn_pipeline (train_pytorch_model e1) (convert_onnx_to_c e2)
                (compile_and_test e3) (build_minimal_binary e4) in
     (λ st, (node st, name (component st))) <$> jobs p =
       [ ("train_step", "pytorch_train"); ("onnx2c_step", "onnx2c");
         ("compile_step", "compile_and_test"); ("binary_step", "build_minimal") ] ∧
     edges p =
       [ {| source := "train_step"; source_output := "output_dir";
            target := "onnx2c_step"; target_input := "model_dir" |};
         {| source := "onnx2c_step"; source_output := "output_dir";
            target := "compile_step"; target_input := "c_code_dir" |};
         {| source := "train_step"; source_output := "output_dir";
            target := "compile_step"; target_input := "model_dir" |};
         {| source := "onnx2c_step"; source_output := "output_dir";
            target := "binary_step"; target_input := "c_code_dir" |} ] ∧
     connections p =
       [ ("pytorch_train", "output_dir", "onnx2c", "model_dir");
         ("onnx2c", "output_dir", "compile_and_test", "c_code_dir");
         ("pytorch_train", "output_dir", "compile_and_test", "model_dir");
         ("onnx2c", "output_dir", "build_minimal", "c_code_dir") ] ∧
     forallb (ports_declared p) (edges p) = true ∧
     forallb (forward p) (edges p) = true) ∧
  (∀ (s : S) args pipeline,
     returned (setup sdk host s) = Returned (args, pipeline) →
     connections pipeline =
       [ ("pytorch_train", "output_dir", "onnx2c", "model_dir");
         ("onnx2c", "output_dir", "compile_and_test", "c_code_dir");
         ("pytorch_train", "output_dir", "compile_and_test", "model_dir");
         ("onnx2c", "output_dir", "build_minimal", "c_code_dir") ]).
Proof.
  split.
  - intros e1 e2 e3 e4 p. subst p. by repeat split.
  - intros s args pipeline Hs.
    by destruct (setup_registrations sdk host s args pipeline Hs) as (r1 & r2 & r3 & _ & ->).
Qed.

End Graph.

(** ** The reference workspace obeys the laws of the two-run argument *)

Section Workspace.
Implicit Types w : Workspace.

Lemma upsert_names c l n :
  n ∈ compute_name <$> upsert c l ↔ n = compute_name c ∨ n ∈ compute_name <$> l.
Proof.
  unfold upsert. case_bool_decide as Hc.
  - assert (compute_name <$> map (λ c', if bool_decide (compute_name c' = compute_name c)
                                          then c else c') l
            = compute_name <$> l) as ->.
    { clear Hc. induction l as [|c' l IH]; [done|]. cbn. rewrite <-IH.
      f_equal. by case_bool_decide. }
    split; [by right|]. by intros [->|?].
  - rewrite fmap_app, elem_of_app. cbn. rewrite list_elem_of_singleton. tauto.
Qed.

Lemma workspace_listing_accurate w l w' :
  handle workspace_sdk compute_list w = (Returned l, w') →
  has_cluster w → "cpu-cluster" ∈ compute_name <$> l.
Proof. by intros [= <- _]. Qed.

Lemma workspace_creation_takes_effect w c w' :
  handle workspace_sdk (compute_begin_create_or_update compute_cluster) w = (Returned c, w') →
  has_cluster w'.
Proof. intros [= _ <-]. unfold has_cluster. cbn. apply upsert_names. by left. Qed.

Lemma workspace_never_deleted c w :
  has_cluster w → has_cluster (handle workspace_sdk c w).2.
Proof.
  unfold has_cluster. intros H. destruct c; cbn; try done.
  - apply upsert_names. by right.
  - by destruct (List.find _ _).
  - by destruct (ws_datastore w).
  - by case_bool_decide.
Qed.

End Workspace.

(** ** The properties on the reference workspace *)

Lemma nn_pipeline_graph_witness :
  returned (setup workspace_sdk (dev_host false) fresh_workspace) =
    Returned ({| run := false |}, reference_pipeline) ∧
  connections reference_pipeline =
    [ ("pytorch_train", "output_dir", "onnx2c", "model_dir");
      ("onnx2c", "output_dir", "compile_and_test", "c_code_dir");
      ("pytorch_train", "output_dir", "compile_and_test", "model_dir");
      ("onnx2c", "output_dir", "build_minimal", "c_code_dir") ].
Proof.
  assert (returned (setup workspace_sdk (dev_host false) fresh_workspace) =
            Returned ({| run := false |}, reference_pipeline)) as Hs
    by compute_done.
  split; [exact Hs|].
  exact (proj2 (nn_pipeline_graph workspace_sdk (dev_host false)) _ _ _ Hs).
Defined.

Lemma missing_directories_abort_witness :
  missing_directories host_missing_directories = ["environments/gcc"; "src/onnx2c"] ∧
  returned (main workspace_sdk host_missing_directories fresh_workspace) =
    Raised (FileNotFoundError
      "One or more required directories are missing. Please create them and try again.") ∧
  transcript (main workspace_sdk host_missing_directories fresh_workspace) =
    [ Invoke new_DefaultAzureCredential (Returned VNone);
      Invoke (new_MLClient "sub-0" "rg-ml" "ws-ml") (Returned VNone);
      Print "The following required directories are missing:";
      Print " - environments/gcc";
      Print " - src/onnx2c" ].
Proof.
  assert (missing_directories host_missing_directories = ["environments/gcc"; "src/onnx2c"])
    as Hm by compute_done.
  split; [exact Hm|].
  pose proof (missing_directories_abort workspace_sdk host_missing_directories
                fresh_workspace) as H.
  cbv zeta in H. destruct H as (_ & H & _).
  destruct H as (_ & _ & H); [by rewrite Hm|].
  destruct (H {| run := false |}) as [Hret Ht]; [vm_compute; reflexivity|].
  split; [exact Hret|]. etrans; [exact Ht|]. compute_done.
Defined.

Lemma submission_iff_run_flag_witness :
  returned (setup workspace_sdk (dev_host true) fresh_workspace) =
    Returned ({| run := true |}, reference_pipeline) ∧
  (∃ o, transcript (main workspace_sdk (dev_host true) fresh_workspace) =
          transcript (setup workspace_sdk (dev_host true) fresh_workspace) ++
          Invoke (jobs_create_or_update reference_pipeline) o ::
          match o with
          | Returned (VJob j) =>
              [Print ("Pipeline job submitted with ID: " +:+ py_str (job_name j))]
          | _ => []
          end) ∧
  returned (setup workspace_sdk (dev_host false) fresh_workspace) =
    Returned ({| run := false |}, reference_pipeline) ∧
  main workspace_sdk (dev_host false) fresh_workspace =
    Run (Returned tt) provisioned_workspace
      (transcript (setup workspace_sdk (dev_host false) fresh_workspace) ++
       [ Print (String "010"%char "Setup complete! Pipeline is ready to be submitted.");
         Print "Run the pipeline with the --run flag to execute it." ]).
Proof.
  assert (returned (setup workspace_sdk (dev_host true) fresh_workspace) =
            Returned ({| run := true |}, reference_pipeline)) as Hs1
    by compute_done.
  assert (returned (setup workspace_sdk (dev_host false) fresh_workspace) =
            Returned ({| run := false |}, reference_pipeline)) as Hs2
    by compute_done.
  split; [exact Hs1|]. split.
  - pose proof (submission_iff_run_flag workspace_sdk (dev_host true) fresh_workspace) as H.
    cbv zeta in H. destruct H as (_ & H & _).
    pose proof (H _ _ Hs1) as [_ H']. cbn [run] in H'. exact H'.
  - split; [exact Hs2|].
    pose proof (submission_iff_run_flag workspace_sdk (dev_host false) fresh_workspace) as H.
    cbv zeta in H. destruct H as (_ & H & _).
    pose proof (H _ _ Hs2) as [_ Hr]. cbn [run] in Hr.
    etrans; [exact Hr|]. apply (f_equal (λ w, Run _ w _)). compute_done.
Defined.

Lemma cluster_created_once_witness :
  has_cluster provisioned_workspace ∧
  select creation_request
    (transcript (main workspace_sdk (dev_host true) provisioned_workspace)) = [] ∧
  (List.length
     (select created_compute
        (transcript (main workspace_sdk (dev_host false) fresh_workspace) ++
         transcript (main workspace_sdk (dev_host true) provisioned_workspace))) ≤ 1)%nat.
Proof.
  assert (has_cluster provisioned_workspace) as Hc
    by compute_done.
  split; [exact Hc|]. split.
  - pose proof (cluster_created_once workspace_sdk (dev_host true) provisioned_workspace) as H.
    cbv zeta in H. destruct H as (_ & _ & _ & H).
    exact (proj1 (H has_cluster workspace_listing_accurate workspace_creation_takes_effect
                    workspace_never_deleted) Hc).
  - pose proof (cluster_created_once workspace_sdk (dev_host false) fresh_workspace) as H.
    cbv zeta in H. destruct H as (_ & _ & _ & H).
    exact (proj2 (H has_cluster workspace_listing_accurate workspace_creation_takes_effect
                    workspace_never_deleted) (dev_host true)).
Defined.

Lemma duplicate_role_assignment_tolerated_witness :
  Invoke (role_assignments_create reference_scope (uuid4 (dev_host false))
            reference_role_assignment)
         (Raised (ResourceExistsError "RoleAssignmentExists"))
    ∈ transcript (main workspace_sdk (dev_host false) provisioned_workspace) ∧
  ∃ args pipeline,
    returned (setup workspace_sdk (dev_host false) provisioned_workspace) =
      Returned (args, pipeline).
Proof.
  assert (Invoke (role_assignments_create reference_scope (uuid4 (dev_host false))
                    reference_role_assignment)
                 (Raised (ResourceExistsError "RoleAssignmentExists"))
            ∈ transcript (main workspace_sdk (dev_host false) provisioned_workspace)) as Hin
    by compute_done.
  split; [exact Hin|].
  apply (duplicate_role_assignment_tolerated workspace_sdk (dev_host false)
           provisioned_workspace _ _ _ _ Hin).
  - right. by exists "RoleAssignmentExists".
  - vm_compute. repeat (apply Forall_cons_2 || apply Forall_nil_2); by eexists.
Defined.

Lemma only_resource_exists_is_handled_witness :
  Invoke (environments_create_or_update gcc_env) (Raised build_failure)
    ∈ transcript (main failing_sdk (dev_host true) fresh_workspace) ∧
  last (transcript (main failing_sdk (dev_host true) fresh_workspace)) =
    Some (Invoke (environments_create_or_update gcc_env) (Raised build_failure)) ∧
  returned (main failing_sdk (dev_host true) fresh_workspace) = Raised build_failure.
Proof.
  assert (Invoke (environments_create_or_update gcc_env) (Raised build_failure)
            ∈ transcript (main failing_sdk (dev_host true) fresh_workspace)) as Hin
    by compute_done.
  split; [exact Hin|].
  destruct (only_resource_exists_is_handled failing_sdk (dev_host true) fresh_workspace
              _ _ Hin) as [(scope & n & p & msg & Hc & _)|H].
  - discriminate Hc.
  - exact H.
Defined.

Lemma unset_variable_aborts_witness :
  "resource_group_name" ∈ required_variables ∧
  environ host_unset !! "resource_group_name" = None ∧
  main workspace_sdk host_unset fresh_workspace =
    Run (Raised (KeyError "resource_group_name")) fresh_workspace
      [Invoke new_DefaultAzureCredential (Returned VNone)].
Proof.
  assert ("resource_group_name" ∈ required_variables) as Hkey
    by compute_done.
  assert (environ host_unset !! "resource_group_name" = None) as Hnone
    by compute_done.
  split; [exact Hkey|]. split; [exact Hnone|].
  pose proof (unset_variable_aborts workspace_sdk host_unset "resource_group_name"
                fresh_workspace Hkey Hnone) as H.
  cbv zeta in H. destruct H as (_ & _ & H & _).
  destruct (H {| run := false |} fresh_workspace eq_refl eq_refl) as (key' & Hfirst & _ & Hr).
  vm_compute in Hfirst. injection Hfirst as <-. exact Hr.
Defined.

Lemma environments_registered_and_referenced_witness :
  returned (setup workspace_sdk (dev_host false) fresh_workspace) =
    Returned ({| run := false |}, reference_pipeline) ∧
  ∃ r1 r2 r3 : Environment,
    (env_name <$> [r1; r2; r3], version <$> [r1; r2; r3]) =
      (["pytorch-onnx-env"; "onnx2c-env"; "gcc-env"], [Some "1"; Some "1"; Some "1"]) ∧
    (λ st, (name (component st), environment (component st))) <$> jobs reference_pipeline =
      [ ("pytorch_train", "pytorch-onnx-env:" +:+ py_str (version r1));
        ("onnx2c", "onnx2c-env:" +:+ py_str (version r2));
        ("compile_and_test", "gcc-env:" +:+ py_str (version r3));
        ("build_minimal", "gcc-env:" +:+ py_str (version r3)) ].
Proof.
  assert (returned (setup workspace_sdk (dev_host false) fresh_workspace) =
            Returned ({| run := false |}, reference_pipeline)) as Hs
    by compute_done.
  split; [exact Hs|].
  destruct (environments_registered_and_referenced workspace_sdk (dev_host false)
              fresh_workspace _ _ Hs) as (r1 & r2 & r3 & Ht & Hp).
  exists r1, r2, r3. split; [|exact Hp].
  vm_compute in Ht. by injection Ht as <- <- <-.
Defined.

Lemma cluster_without_identity_aborts_witness :
  Invoke (compute_get "cpu-cluster") (Returned (VCompute cluster_without_identity))
    ∈ transcript (main workspace_sdk (dev_host false) workspace_without_identity) ∧
  identity cluster_without_identity = None ∧
  returned (main workspace_sdk (dev_host false) workspace_without_identity) =
    Raised (AttributeError "'NoneType' object has no attribute 'principal_id'") ∧
  select role_request
    (transcript (main workspace_sdk (dev_host false) workspace_without_identity)) = [].
Proof.
  assert (Invoke (compute_get "cpu-cluster") (Returned (VCompute cluster_without_identity))
            ∈ transcript (main workspace_sdk (dev_host false) workspace_without_identity))
    as Hin by compute_done.
  split; [exact Hin|]. split; [reflexivity|].
  destruct (cluster_without_identity_aborts workspace_sdk (dev_host false)
              workspace_without_identity _ Hin eq_refl) as (Hret & _ & Hall).
  split; [exact Hret|].
  apply select_nil. eapply Forall_impl; [exact Hall|].
  intros [line|c o]; [done|]. by destruct c.
Defined.

Lemma layout_check_tests_existence_only_witness :
  Forall (λ d, file_system host_regular_files !! d = Some regular_file) directories ∧
  missing_directories host_regular_files = [] ∧
  check_directories host_regular_files fresh_workspace =
    Run (Returned tt) fresh_workspace [Print "All required directories are present."] ∧
  missing_directories (dev_host false) = missing_directories host_regular_files.
Proof.
  assert (Forall (λ d, file_system host_regular_files !! d = Some regular_file) directories)
    as Hall by (repeat (apply Forall_cons_2 || apply Forall_nil_2); vm_compute; reflexivity).
  split; [exact Hall|].
  destruct (layout_check_tests_existence_only workspace_sdk host_regular_files)
    as (Hm & Hcheck & _ & Hdom).
  - intros d Hd. rewrite Forall_forall in Hall. rewrite (Hall d Hd). by eexists.
  - split; [exact Hm|]. split; [apply Hcheck|].
    apply Hdom. compute_done.
Defined.

Section RoleRequest.
Context {S : Type} (sdk : SDK S) (host : Host).
Implicit Types s : S.

(** X1: a run sends at most one role-assignment request, and builds it from
    what it read before: the scope is the storage account of the datastore
    [workspaceblobstore] under the subscription and resource group of the
    environment, the name is the [uuid4] draw, the role is Storage Blob Data
    Contributor under that subscription, the principal is [principal_id] of
    the identity of the compute the run fetched (whatever it is, [None]
    included), and the principal type is [ServicePrincipal]. *)
Theorem role_assignment_request s scope n p o :
  Invoke (role_assignments_create scope n p) o ∈ transcript (main sdk host s) →
  let t := transcript (main sdk host s) in
  ∃ cluster i datastore sub rg,
    select fetched_compute t = [cluster] ∧
    identity cluster = Some i ∧
    select fetched_datastore t = [datastore] ∧
    environ host !! "subscription_id" = Some sub ∧
    environ host !! "resource_group_name" = Some rg ∧
    scope = "/subscriptions/" +:+ sub +:+ "/resourceGroups/" +:+ rg
            +:+ "/providers/Microsoft.Storage/storageAccounts/" +:+ account_name datastore ∧
    n = uuid4 host ∧
    p = {| role_definition_id :=
             "/subscriptions/" +:+ sub
             +:+ "/providers/Microsoft.Authorization/roleDefinitions/ba92f5b4-2d11-453d-a403-e96b0029c9fe";
           role_principal_id := principal_id i;
           principal_type := "ServicePrincipal" |} ∧
    select role_request t = [(scope, n, p, o)].
Proof.
  intros Hin t. subst t.
  set (P := λ ev, role_request ev = None ∧ fetched_compute ev = None
                  ∧ fetched_datastore ev = None).
  assert (∀ t, Forall P t → select role_request t = []) as Hnone1
    by (intros t Ht; apply select_nil; eapply Forall_impl; [exact Ht|]; by intros ? (? & ? & ?)).
  assert (∀ t, Forall P t → select fetched_compute t = []) as Hnone2
    by (intros t Ht; apply select_nil; eapply Forall_impl; [exact Ht|]; by intros ? (? & ? & ?)).
  assert (∀ t, Forall P t → select fetched_datastore t = []) as Hnone3
    by (intros t Ht; apply select_nil; eapply Forall_impl; [exact Ht|]; by intros ? (? & ? & ?)).
  apply (elem_of_select role_request _ _ (scope, n, p, o)) in Hin; [|done].
  remember (main sdk host s) as r eqn:Hr. unfold main, setup in Hr.
  repeat first [step P Hr | step_try Hr].
  all: subst r; cbn [returned transcript to_value] in *.
  all: select_in Hin Hnone1.
  all: try by apply elem_of_nil in Hin.
  all: apply list_elem_of_singleton in Hin; injection Hin as -> -> -> ->.
  all: repeat match goal with H : Some _ = Some _ |- _ => injection H as -> end.
  all: eexists _, _, _, _, _.
  all: (split; [by select_goal Hnone2|]).
  all: (split; [eassumption|]).
  all: (split; [by select_goal Hnone3|]).
  all: do 5 (split; [reflexivity|]).
  all: by select_goal Hnone1.
Qed.

End RoleRequest.

(** Computes [last] of a transcript that ends in explicit events. *)
Ltac last_head :=
  lazymatch goal with
  | |- context [last (?x :: ?y :: ?l)] => rewrite (last_cons_cons x y l)
  | |- context [last (?x :: ?l ++ ?y :: ?k)] =>
      change (x :: l ++ y :: k) with ((x :: l) ++ y :: k);
      rewrite (last_app_cons (x :: l) k y)
  | |- context [last (?l ++ ?y :: ?k)] => rewrite (last_app_cons l k y)
  end.

Ltac solve_last := repeat last_head; reflexivity.

Section Failures.
Context {S : Type} (sdk : SDK S) (host : Host).
Implicit Types s : S.

Lemma check_directories_raised s e s' t :
  check_directories host s = Run (Raised e) s' t →
  missing_directories host ≠ [] ∧
  e = FileNotFoundError
        "One or more required directories are missing. Please create them and try again.".
Proof.
  intros E. destruct (decide (missing_directories host = [])) as [Hm|Hm].
  - rewrite (check_directories_present host s Hm) in E. discriminate E.
  - rewrite (check_directories_missing host s Hm) in E. by injection E as <- _ _.
Qed.

Lemma create_pipeline_registered (e1 e2 e3 : string) s :
  returned
    (create_pipeline
       (<["gcc-env" := e3]> (<["onnx2c-env" := e2]> (<["pytorch-onnx-env" := e1]> ∅))) s) =
    Returned (nn_pipeline (train_pytorch_model e1) (convert_onnx_to_c e2)
                (compile_and_test e3) (build_minimal_binary e3)).
Proof.
  erewrite create_pipeline_run; [done| | |].
  - do 2 (rewrite lookup_insert_ne by done). apply lookup_insert_eq.
  - rewrite lookup_insert_ne by done. apply lookup_insert_eq.
  - apply lookup_insert_eq.
Qed.

(** X2: the ways [main] fails.  An exception out of [main] is the one
    [parse_args] raised, with nothing done; or one an SDK call raised, that
    call being the last event; or [KeyError] of the first unset variable,
    right after the credential was constructed; or [FileNotFoundError] of the
    directory check, with no request sent; or [AttributeError] right after
    [compute.get] returned a cluster without identity.  In particular the
    later reads of [os.environ] and of [latest_envs] never fail. *)
Theorem main_failure_modes s e :
  returned (main sdk host s) = Raised e →
  let t := transcript (main sdk host s) in
  (parse_args host = Raised e ∧ t = []) ∨
  (∃ c, last t = Some (Invoke c (Raised e))) ∨
  (∃ key, first_unset (environ host) = Some key ∧ e = KeyError key ∧
          t = [Invoke new_DefaultAzureCredential (Returned VNone)]) ∨
  (missing_directories host ≠ [] ∧
   e = FileNotFoundError
         "One or more required directories are missing. Please create them and try again." ∧
   Forall (λ ev, is_remote_event ev = false) t) ∨
  (∃ cluster, identity cluster = None ∧
     e = AttributeError "'NoneType' object has no attribute 'principal_id'" ∧
     last t = Some (Invoke (compute_get "cpu-cluster") (Returned (VCompute cluster)))).
Proof.
  intros Hs t. subst t.
  set (P := λ ev, match ev with Print _ => True | Invoke _ _ => False end).
  remember (main sdk host s) as r eqn:Hr. unfold main, setup in Hr.
  repeat first [step P Hr | step_try Hr].
  all: subst r; cbn [returned transcript to_value] in *; try discriminate Hs.
  all: injection Hs as <-.
  all: try congruence.
  all: try (left; split; [first [assumption|reflexivity]|reflexivity]).
  all: try (right; left; eexists; solve_last).
  all: try (right; right; right; right; eexists; split; [eassumption|];
            split; [reflexivity|]; solve_last).
  all: try match goal with
       | E : check_directories _ _ = Run (Raised _) _ _ |- _ =>
           apply check_directories_raised in E as [? ->];
           right; right; right; left; split; [assumption|]; split; [reflexivity|];
           repeat (apply Forall_cons_2; [reflexivity|]);
           eapply Forall_impl; [eassumption|]; by intros []
       end.
  all: try match goal with
       | E : create_pipeline _ _ = Run (Raised _) _ _ |- _ =>
           apply (f_equal returned) in E; rewrite create_pipeline_registered in E;
           discriminate E
       end.
  all: right; right; left; eexists; split; [|split; reflexivity];
       unfold first_unset; cbn [List.find required_variables];
       repeat case_bool_decide; congruence.
Qed.

End Failures.

(** Decides a prefix relation between explicit lists. *)
Ltac solve_prefix := cbn [script_order app]; repeat apply prefix_cons; apply prefix_nil.

Section Order.
Context {S : Type} (sdk : SDK S) (host : Host).
Implicit Types s : S.

(** X3: the SDK calls of any run, in order, are an initial part of the
    calls in the text of [main]: credential, workspace client, listing,
    creation (or not), fetch, datastore, credential, authorization client,
    role assignment, the three registrations in the order of [env_configs],
    submission (or not); no call is made twice or out of turn.  A run that
    returns made all of them, with the submission exactly when [--run] was
    given. *)
Theorem calls_in_script_order s :
  let ops := operation_of <$> calls (transcript (main sdk host s)) in
  (∃ create submit, ops `prefix_of` script_order create submit) ∧
  (∀ args, parse_args host = Returned args →
     returned (main sdk host s) = Returned tt →
     ∃ create, ops = script_order create (run args)).
Proof.
  intros ops. subst ops. unfold calls.
  set (f := λ ev, match ev with Invoke c _ => Some c | Print _ => None end).
  set (P := λ ev, match ev with Print _ => True | Invoke _ _ => False end).
  assert (∀ t, Forall P t → select f t = []) as Hnone.
  { intros t Ht. apply select_nil. eapply Forall_impl; [exact Ht|]. by intros []. }
  remember (main sdk host s) as r eqn:Hr. unfold main, setup in Hr.
  repeat first [step P Hr | step_try Hr].
  all: subst r; cbn [returned transcript to_value] in *.
  all: select_goal Hnone; cbn [f fmap list_fmap operation_of env_name].
  all: split;
    [ first [ exists true, true; solve_prefix
            | exists true, false; solve_prefix
            | exists false, true; solve_prefix
            | exists false, false; solve_prefix ]
    | intros args Hargs Hret; try discriminate Hret ].
  all: injection Hargs as <-;
       match goal with H : run _ = _ |- _ => rewrite H end;
       first [by exists true | by exists false].
Qed.

End Order.

Section Success.
Context {S : Type} (sdk : SDK S) (host : Host).
Implicit Types s : S.

Lemma check_directories_returned s s' t :
  check_directories host s = Run (Returned tt) s' t →
  missing_directories host = [] ∧ t = [Print "All required directories are present."].
Proof.
  intros E. destruct (decide (missing_directories host = [])) as [Hm|Hm].
  - rewrite (check_directories_present host s Hm) in E. by injection E as _ <-.
  - rewrite (check_directories_missing host s Hm) in E. discriminate E.
Qed.

Lemma create_pipeline_registered_run (e1 e2 e3 : string) s p s' t :
  create_pipeline
    (<["gcc-env" := e3]> (<["onnx2c-env" := e2]> (<["pytorch-onnx-env" := e1]> ∅))) s
    = Run (Returned p) s' t →
  p = nn_pipeline (train_pytorch_model e1) (convert_onnx_to_c e2)
        (compile_and_test e3) (build_minimal_binary e3) ∧
  t = [Print "Creating pipeline components..."].
Proof.
  erewrite create_pipeline_run; [by intros [= <- _ <-]| | |].
  - do 2 (rewrite lookup_insert_ne by done). apply lookup_insert_eq.
  - rewrite lookup_insert_ne by done. apply lookup_insert_eq.
  - apply lookup_insert_eq.
Qed.

(** X4: a run that returns is, event by event, the text of [main]: the
    command line parsed, the three variables are set, no directory is
    missing, the fetched cluster has an identity, the role-assignment call
    returned or raised [ResourceExistsError], and the transcript is the
    sequence of calls and printed lines below, where the cluster is created
    exactly when the listing has no [cpu-cluster] and the last part depends
    on [--run]. *)
Theorem successful_run s :
  returned (main sdk host s) = Returned tt →
  ∃ args sub rg ws computes created cluster i datastore o r1 r2 r3 job,
    parse_args host = Returned args ∧
    environ host !! "subscription_id" = Some sub ∧
    environ host !! "resource_group_name" = Some rg ∧
    environ host !! "workspace_name" = Some ws ∧
    missing_directories host = [] ∧
    identity cluster = Some i ∧
    ((∃ ra, o = Returned (VRoleAssignment ra)) ∨ (∃ msg, o = Raised (ResourceExistsError msg))) ∧
    transcript (main sdk host s) =
      [ Invoke new_DefaultAzureCredential (Returned VNone);
        Invoke (new_MLClient sub rg ws) (Returned VNone);
        Print "All required directories are present.";
        Print "Creating compute cluster...";
        Invoke compute_list (Returned (VComputes computes)) ]
      ++ (if bool_decide ("cpu-cluster" ∉ compute_name <$> computes)
          then [ Invoke (compute_begin_create_or_update compute_cluster)
                   (Returned (VCompute created));
                 Print "Compute cluster created." ]
          else [ Print "Compute cluster already exists." ])
      ++ [ Invoke (compute_get "cpu-cluster") (Returned (VCompute cluster));
           Print ("Compute cluster identity principal ID: " +:+ py_str (principal_id i));
           Invoke (datastores_get "workspaceblobstore") (Returned (VDatastore datastore));
           Invoke new_DefaultAzureCredential (Returned VNone);
           Invoke (new_AuthorizationManagementClient sub) (Returned VNone);
           Invoke (role_assignments_create
                     ("/subscriptions/" +:+ sub +:+ "/resourceGroups/" +:+ rg
                      +:+ "/providers/Microsoft.Storage/storageAccounts/"
                      +:+ account_name datastore)
                     (uuid4 host)
                     {| role_definition_id :=
                          "/subscriptions/" +:+ sub
                          +:+ "/providers/Microsoft.Authorization/roleDefinitions/ba92f5b4-2d11-453d-a403-e96b0029c9fe";
                        role_principal_id := principal_id i;
                        principal_type := "ServicePrincipal" |}) o;
           Print (match o with
                  | Returned (VRoleAssignment ra) =>
                      "Role assignment created: " +:+ py_str (assignment_id ra)
                  | _ => "Role assignment already exists. Skipping creation."
                  end);
           Print "Creating environments...";
           Invoke (environments_create_or_update
                     {| env_name := "pytorch-onnx-env";
                        env_description := "Environment for PyTorch training and ONNX export";
                        build := {| path := "environments/pytorch" |};
                        version := None |}) (Returned (VEnvironment r1));
           Print ("Environment pytorch-onnx-env created/updated with version "
                  +:+ py_str (version r1));
           Invoke (environments_create_or_update
                     {| env_name := "onnx2c-env";
                        env_description := "Environment for ONNX to C conversion";
                        build := {| path := "environments/onnx2c" |};
                        version := None |}) (Returned (VEnvironment r2));
           Print ("Environment onnx2c-env created/updated with version "
                  +:+ py_str (version r2));
           Invoke (environments_create_or_update
                     {| env_name := "gcc-env";
                        env_description := "Environment for C compilation and testing";
                        build := {| path := "environments/gcc" |};
                        version := None |}) (Returned (VEnvironment r3));
           Print ("Environment gcc-env created/updated with version "
                  +:+ py_str (version r3));
           Print "Creating pipeline components..." ]
      ++ (if run args
          then [ Invoke (jobs_create_or_update
                           (nn_pipeline
                              (train_pytorch_model ("pytorch-onnx-env:" +:+ py_str (version r1)))
                              (convert_onnx_to_c ("onnx2c-env:" +:+ py_str (version r2)))
                              (compile_and_test ("gcc-env:" +:+ py_str (version r3)))
                              (build_minimal_binary ("gcc-env:" +:+ py_str (version r3)))))
                   (Returned (VJob job));
                 Print ("Pipeline job submitted with ID: " +:+ py_str (job_name job)) ]
          else [ Print (String "010"%char "Setup complete! Pipeline is ready to be submitted.");
                 Print "Run the pipeline with the --run flag to execute it." ]).
Proof.
  intros Hs.
  set (P := λ ev, match ev with Print _ => True | Invoke _ _ => False end).
  remember (main sdk host s) as r eqn:Hr. unfold main, setup in Hr.
  repeat first [step P Hr | step_try Hr].
  all: subst r; cbn [returned transcript to_value] in *; try discriminate Hs.
  all: repeat match goal with H : Some _ = Some _ |- _ => injection H as -> end.
  all: repeat match goal with
              | E : check_directories _ _ = Run (Returned _) _ _ |- _ =>
                  apply check_directories_returned in E as [? ->]
              | E : create_pipeline _ _ = Run (Returned _) _ _ |- _ =>
                  apply create_pipeline_registered_run in E as [-> ->]
              end.
  all: eexists _, _, _, _.
  all: match goal with c : response compute_list |- _ => exists c end.
  all: lazymatch goal with
       | c : response (compute_begin_create_or_update _) |- _ => exists c
       | _ => exists compute_cluster
       end.
  all: eexists _, _, _.
  all: lazymatch goal with
       | ra : response (role_assignments_create _ _ _) |- _ =>
           exists (Returned (VRoleAssignment ra))
       | E : handle _ (role_assignments_create _ _ _) _ = (Raised ?e, _) |- _ =>
           exists (Raised e)
       end.
  all: eexists _, _, _.
  all: lazymatch goal with
       | j : response (jobs_create_or_update _) |- _ => exists j
       | _ => exists {| job_name := None |}
       end.
  all: do 4 (split; [first [eassumption|reflexivity]|]).
  all: split; [assumption|].
  all: split; [eassumption|].
  all: split; [first [left; eexists; reflexivity | right; eexists; reflexivity]|].
  all: match goal with
       | Hb : bool_decide _ = _, Hrun : run _ = _ |- _ => rewrite Hb, Hrun
       end.
  all: reflexivity.
Qed.

End Success.

Section Declaration.
Context {S : Type} (sdk : SDK S) (host : Host).

(** X5: the pipeline [nn_pipeline] declares is well formed whatever the
    environments of its components: the four nodes are distinct, the keyword
    arguments of each node are exactly the inputs its component declares,
    the four pipeline outputs are the [output_dir] ports of the four nodes
    and each is declared by the component of its node, and every component,
    like the pipeline itself, runs on the compute that lines 57-72 create or
    reuse.  The same holds of the pipeline a completed [setup] returns. *)
Theorem nn_pipeline_well_formed :
  (∀ e1 e2 e3 e4 : string,
     let p := nn_pipeline (train_pytorch_model e1) (convert_onnx_to_c e2)
                (compile_and_test e3) (build_minimal_binary e4) in
     NoDup (node <$> jobs p) ∧
     forallb inputs_bound (jobs p) = true ∧
     pipeline_outputs p =
       [ ("training_output", {| owner := "train_step"; output_name := "output_dir" |});
         ("c_code_output", {| owner := "onnx2c_step"; output_name := "output_dir" |});
         ("test_results", {| owner := "compile_step"; output_name := "output_dir" |});
         ("minimal_binary", {| owner := "binary_step"; output_name := "output_dir" |}) ] ∧
     forallb (output_resolves p) (pipeline_outputs p) = true ∧
     forallb runs_on_cluster (jobs p) = true ∧
     pipeline_compute p = compute_name compute_cluster) ∧
  (∀ (s : S) args pipeline,
     returned (setup sdk host s) = Returned (args, pipeline) →
     NoDup (node <$> jobs pipeline) ∧
     forallb inputs_bound (jobs pipeline) = true ∧
     forallb (output_resolves pipeline) (pipeline_outputs pipeline) = true ∧
     forallb runs_on_cluster (jobs pipeline) = true ∧
     pipeline_compute pipeline = compute_name compute_cluster).
Proof.
  assert (∀ e1 e2 e3 e4 : string,
            NoDup (node <$> jobs (nn_pipeline (train_pytorch_model e1) (convert_onnx_to_c e2)
                                    (compile_and_test e3) (build_minimal_binary e4)))) as Hnodup.
  { intros. cbn. repeat (apply NoDup_cons; split; [by compute_done|]). apply NoDup_nil_2. }
  split.
  - intros e1 e2 e3 e4 p. subst p. split; [apply Hnodup|]. by repeat split.
  - intros s args pipeline Hs.
    destruct (setup_registrations sdk host s args pipeline Hs) as (r1 & r2 & r3 & _ & ->).
    split; [apply Hnodup|]. by repeat split.
Qed.

End Declaration.

Section Preflight.
Context {S : Type} (sdk : SDK S) (host : Host).
Implicit Types s : S.

Lemma connect_run s :
  (∀ c s0, is_remote c = false → (handle sdk c s0).2 = s0) →
  final (connect sdk host s) = s ∧
  ∀ args, returned (connect sdk host s) = Returned args →
    parse_args host = Returned args ∧ first_unset (environ host) = None.
Proof.
  intros Hpure. set (P := λ _ : event, False).
  remember (connect sdk host s) as r eqn:Hr. unfold connect, os_environ in Hr.
  simpl_run Hr. destruct (parse_args host) as [a|e] eqn:Hargs; [|by subst r].
  repeat (step P Hr).
  all: subst r; cbn [returned final].
  all: repeat match goal with
              | E : invoke sdk ?c ?s0 = Run _ ?s1 _ |- _ =>
                  let H := fresh in
                  pose proof (Hpure c s0 eq_refl) as H;
                  unfold invoke in E; destruct (handle sdk c s0);
                  cbn in H; injection E as _ E _; subst
              end.
  all: split; [reflexivity|]; intros args Hret; try discriminate Hret.
  injection Hret as <-. split; [reflexivity|].
  unfold first_unset. cbn [List.find required_variables].
  repeat case_bool_decide; congruence.
Qed.

(** X6: on a platform where constructing a credential or a client changes
    nothing, a run that fails before provisioning (the command line does not
    parse, a required variable is unset, or a required path is absent) raises
    and leaves the platform in the state it found. *)
Theorem failed_preflight_leaves_platform_untouched s :
  (∀ c s0, is_remote c = false → (handle sdk c s0).2 = s0) →
  (∃ e, parse_args host = Raised e) ∨
  (∃ key, first_unset (environ host) = Some key) ∨
  missing_directories host ≠ [] →
  final (main sdk host s) = s ∧ ∃ e, returned (main sdk host s) = Raised e.
Proof.
  intros Hpure Hfail. destruct (connect_run s Hpure) as [Hfinal Hret].
  destruct (returned (connect sdk host s)) as [args|e] eqn:Hc.
  - destruct (Hret args eq_refl) as [Hargs Hunset].
    destruct Hfail as [[e He]|[[key Hkey]|Hm]]; [congruence..|].
    remember (main sdk host s) as r eqn:Hr. unfold main, setup in Hr.
    run (connect sdk host s) in Hr as [[a|e] s1 t0]; [|discriminate Hc].
    cbn [final] in Hfinal. subst s1.
    pose proof (check_directories_missing host s Hm) as Ecd. push_run Ecd Hr.
    subst r. split; [reflexivity|by eexists].
  - rewrite (main_connect_raised sdk host s e Hc). cbn [final returned].
    split; [exact Hfinal|by eexists].
Qed.

End Preflight.

(** ** The further properties on the reference workspace *)

Lemma workspace_constructors_pure c w :
  is_remote c = false → (handle workspace_sdk c w).2 = w.
Proof. by destruct c. Qed.

Lemma role_assignment_request_witness :
  Invoke (role_assignments_create reference_scope (uuid4 (dev_host false))
            reference_role_assignment)
         (Raised (ResourceExistsError "RoleAssignmentExists"))
    ∈ transcript (main workspace_sdk (dev_host false) provisioned_workspace) ∧
  select role_request (transcript (main workspace_sdk (dev_host false) provisioned_workspace)) =
    [ (reference_scope, uuid4 (dev_host false), reference_role_assignment,
       Raised (ResourceExistsError "RoleAssignmentExists")) ].
Proof.
  assert (Invoke (role_assignments_create reference_scope (uuid4 (dev_host false))
                    reference_role_assignment)
                 (Raised (ResourceExistsError "RoleAssignmentExists"))
            ∈ transcript (main workspace_sdk (dev_host false) provisioned_workspace)) as Hin
    by compute_done.
  split; [exact Hin|].
  pose proof (role_assignment_request workspace_sdk (dev_host false) provisioned_workspace
                _ _ _ _ Hin) as H.
  cbv zeta in H. destruct H as (cluster & i & d & sub & rg & H).
  exact (proj2 (proj2 (proj2 (proj2 (proj2 (proj2 (proj2 (proj2 H)))))))).
Defined.

Lemma main_failure_modes_witness :
  returned (main workspace_sdk host_missing_directories fresh_workspace) =
    Raised (FileNotFoundError
      "One or more required directories are missing. Please create them and try again.") ∧
  Forall (λ ev, is_remote_event ev = false)
    (transcript (main workspace_sdk host_missing_directories fresh_workspace)).
Proof.
  assert (returned (main workspace_sdk host_missing_directories fresh_workspace) =
            Raised (FileNotFoundError
              "One or more required directories are missing. Please create them and try again."))
    as Hret by compute_done.
  split; [exact Hret|].
  pose proof (main_failure_modes workspace_sdk host_missing_directories fresh_workspace
                _ Hret) as H.
  cbv zeta in H.
  destruct H as [[H _]|[[c H]|[(key & _ & H & _)|[(_ & _ & H)|(cluster & _ & H & _)]]]].
  - discriminate H.
  - vm_compute in H. discriminate H.
  - discriminate H.
  - exact H.
  - discriminate H.
Defined.

Lemma successful_run_witness :
  returned (main workspace_sdk (dev_host true) fresh_workspace) = Returned tt ∧
  ∃ args, parse_args (dev_host true) = Returned args ∧ run args = true ∧
          missing_directories (dev_host true) = [].
Proof.
  assert (returned (main workspace_sdk (dev_host true) fresh_workspace) = Returned tt)
    as Hret by compute_done.
  split; [exact Hret|].
  destruct (successful_run workspace_sdk (dev_host true) fresh_workspace Hret)
    as (args & sub & rg & ws & computes & created & cluster & i & d & o & r1 & r2 & r3
        & job & Hargs & _ & _ & _ & Hm & _).
  exists args. split; [exact Hargs|]. split; [|exact Hm].
  by injection Hargs as <-.
Defined.

Lemma failed_preflight_leaves_platform_untouched_witness :
  missing_directories host_missing_directories ≠ [] ∧
  final (main workspace_sdk host_missing_directories fresh_workspace) = fresh_workspace.
Proof.
  assert (missing_directories host_missing_directories ≠ []) as Hm
    by (intros H; vm_compute in H; discriminate H).
  split; [exact Hm|].
  apply (failed_preflight_leaves_platform_untouched workspace_sdk host_missing_directories
           fresh_workspace workspace_constructors_pure).
  right. right. exact Hm.
Defined.
